(** * KauthHandler: the vnode authorization listener of the PrjFS kernel extension

    A shallow embedding of [ProjFS.Mac/PrjFSKext/PrjFSKext/KauthHandler.cpp].

    - The decision gate [HandleVnodeOperation] is a function in a small writer
      monad: the value is the verdict (or the round trip it opens), the trace
      lists the external calls and log entries made on the way.
    - The blocking round trip [TrySendRequestAndWaitForResponse] runs on many
      threads at once, so it is a labelled state machine over a shared world
      (registry, shutdown flag, id counter, the threads' stack frames); one
      step is one access to shared memory or one critical section.
    - [KauthHandler_HandleKernelMessageResponse] and the critical section of
      [AbortAllOutstandingEvents] are functions on that world.

    Left out: the registration of the listener, the allocation of the mutex
    and the counter [s_numActiveKauthEvents], which no property below reads. *)

From Stdlib Require Import ZArith Lia Ascii.
From stdpp Require Import gmap strings list.

Local Open Scope Z_scope.

(** ** Constants of the kernel headers *)

(** <sys/kauth.h>: results of a listener. *)
Definition KAUTH_RESULT_ALLOW : Z := 1.
Definition KAUTH_RESULT_DENY : Z := 2.
Definition KAUTH_RESULT_DEFER : Z := 3.

(** <sys/kauth.h>: vnode action bits. Several names share one bit: the
    directory reading of a bit and its file reading. *)
Definition KAUTH_VNODE_READ_DATA : Z := Z.shiftl 1 1.
Definition KAUTH_VNODE_LIST_DIRECTORY : Z := KAUTH_VNODE_READ_DATA.
Definition KAUTH_VNODE_WRITE_DATA : Z := Z.shiftl 1 2.
Definition KAUTH_VNODE_EXECUTE : Z := Z.shiftl 1 3.
Definition KAUTH_VNODE_SEARCH : Z := KAUTH_VNODE_EXECUTE.
Definition KAUTH_VNODE_DELETE : Z := Z.shiftl 1 4.
Definition KAUTH_VNODE_APPEND_DATA : Z := Z.shiftl 1 5.
Definition KAUTH_VNODE_DELETE_CHILD : Z := Z.shiftl 1 6.
Definition KAUTH_VNODE_READ_ATTRIBUTES : Z := Z.shiftl 1 7.
Definition KAUTH_VNODE_WRITE_ATTRIBUTES : Z := Z.shiftl 1 8.
Definition KAUTH_VNODE_READ_EXTATTRIBUTES : Z := Z.shiftl 1 9.
Definition KAUTH_VNODE_WRITE_EXTATTRIBUTES : Z := Z.shiftl 1 10.
Definition KAUTH_VNODE_READ_SECURITY : Z := Z.shiftl 1 11.
Definition KAUTH_VNODE_WRITE_SECURITY : Z := Z.shiftl 1 12.
Definition KAUTH_VNODE_LINKTARGET : Z := Z.shiftl 1 25.
Definition KAUTH_VNODE_ACCESS : Z := Z.shiftl 1 31.

(** <sys/errno.h> *)
Definition EACCES : Z := 13.
Definition EAGAIN : Z := 35.

(** <sys/vnode.h>: [enum vtype]. A C enum object can hold a value that is none
    of its enumerators; [VOTHER n] is such a value, the one the [default:] of
    a switch receives. *)
Inductive vtype : Type :=
| VNON | VREG | VDIR | VBLK | VCHR | VLNK | VSOCK | VFIFO | VBAD | VSTR | VCPLX
| VOTHER (raw : Z).

Definition vtype_is_VDIR (t : vtype) : bool :=
  match t with VDIR => true | _ => false end.

(** Modelled from the spec: the [FileFlags] enumeration of PrjFSCommon.h is
    not among the sources. The spec gives the node flags as a bitset with the
    two members [InVirtualizationRoot] and [Empty]; they are two distinct bits
    of the 32-bit [va_flags] word. *)
Definition FileFlags_IsInVirtualizationRoot : Z := 8.
Definition FileFlags_IsEmpty : Z := 16.

(** Modelled from the spec: the [MessageType] enumeration of Message.h is not
    among the sources. The source names two kernel-to-user requests and two
    responses; [MessageType_Other] is any further value of the enumeration. *)
Inductive MessageType : Type :=
| MessageType_KtoU_EnumerateDirectory
| MessageType_KtoU_HydrateFile
| MessageType_Response_Success
| MessageType_Response_Fail
| MessageType_Other (raw : Z).

Definition is_Response_Success (t : MessageType) : bool :=
  match t with MessageType_Response_Success => true | _ => false end.

(** ** The environment of one intercepted operation *)

(** The fields of [VirtualizationRoot] (VirtualizationRoots.hpp) the handler
    reads. [providerUserClient] is a pointer: [false] is [nullptr], an offline
    root. [index] is an [int16_t]. *)
Record VirtualizationRoot : Type := {
  providerUserClient : bool;
  providerPid : Z;
  path : string;
  index : Z
}.

(** What the kernel and the root table answer about the vnode of this
    operation: [VirtualizationRoot_VnodeIsOnAllowedFilesystem], [vnode_vtype],
    the [va_flags] of [vnode_getattr], [VirtualizationRoots_FindForVnode]
    ([None] is [nullptr]) and [vn_getpath] ([None] is a non-zero return). *)
Record vnode : Type := {
  vn_allowedFilesystem : bool;
  vn_vtype : vtype;
  vn_va_flags : Z;
  vn_root : option VirtualizationRoot;
  vn_path : option string
}.

(** [vfs_context_t]: the calling process, with the name [proc_name] copies. *)
Record vfs_context : Type := {
  ctx_pid : Z;
  ctx_procname : string
}.

(** ** Traces *)

Inductive LogEntry : Type :=
| Log_VnodeTypeNamed (isVSTR : bool)
| Log_VnodeTypeUnknown (raw : Z)
| Log_NoRootFound
| Log_OfflineWriteDenied (action pid : Z) (procname : string) (isDir : bool)
| Log_OfflineEmptyDenied (action pid : Z) (procname : string) (isDir : bool).

Inductive Event : Type :=
| Ev_vn_getpath
| Ev_ReadVNodeFileFlags
| Ev_proc_name
| Ev_FindForVnode
| Ev_Log (entry : LogEntry).

(** The writer monad of the gate. *)
Definition Gate (A : Type) : Type := (A * list Event)%type.

#[global] Instance Gate_ret : MRet Gate := λ A x, (x, []).
#[global] Instance Gate_bind : MBind Gate := λ A B k m,
  let '(x, t1) := m in let '(y, t2) := k x in (y, t1 ++ t2).
Definition emit (e : Event) : Gate unit := (tt, [e]).
Definition ret {A} (x : A) : Gate A := mret x.

(** ** The helpers of the handler *)

Definition GetPid (context : vfs_context) : Z := ctx_pid context.

Definition ReadVNodeFileFlags (vn : vnode) (context : vfs_context) : Gate Z :=
  emit Ev_ReadVNodeFileFlags ;; ret (vn_va_flags vn).

Definition proc_name (context : vfs_context) : Gate string :=
  emit Ev_proc_name ;; ret (ctx_procname context).

Definition VirtualizationRoots_FindForVnode (vn : vnode) : Gate (option VirtualizationRoot) :=
  emit Ev_FindForVnode ;; ret (vn_root vn).

Definition KextLog (entry : LogEntry) : Gate unit := emit (Ev_Log entry).

Definition FileFlagsBitIsSet (fileFlags bit : Z) : bool :=
  negb (Z.land fileFlags bit =? 0).

Definition ActionBitIsSet (action mask : Z) : bool :=
  negb (Z.land action mask =? 0).

Definition ActionBitsNotSet (action mask : Z) : bool :=
  Z.land action mask =? 0.

Definition IsFileSystemCrawler (procname : string) : bool :=
  if (String.eqb procname "mds" ||
      String.eqb procname "mdworker" ||
      String.eqb procname "mds_stores" ||
      String.eqb procname "fseventsd" ||
      String.eqb procname "Spotlight")%bool
  then true
  else false.

Definition ShouldIgnoreVnodeType (vnodeType : vtype) (vn : vnode) : Gate bool :=
  match vnodeType with
  | VNON | VBLK | VCHR | VSOCK | VFIFO | VBAD => ret true
  | VREG | VDIR | VLNK => ret false
  | VSTR =>
      emit Ev_vn_getpath ;; KextLog (Log_VnodeTypeNamed true) ;; ret false
  | VCPLX =>
      emit Ev_vn_getpath ;; KextLog (Log_VnodeTypeNamed false) ;; ret false
  | VOTHER raw =>
      KextLog (Log_VnodeTypeUnknown raw) ;; ret false
  end.

(** ** The decision gate *)

(** How [HandleVnodeOperation] ends: with a verdict of its own, or in the call
    of [TrySendRequestAndWaitForResponse], whose [*kauthResult] it then
    returns whatever the call's boolean is. *)
Inductive GateOutcome : Type :=
| Verdict (kauthResult : Z)
| RoundTrip (root : VirtualizationRoot) (messageType : MessageType).

Definition offlineWriteMask : Z :=
  Z.lor KAUTH_VNODE_WRITE_ATTRIBUTES
    (Z.lor KAUTH_VNODE_WRITE_EXTATTRIBUTES
      (Z.lor KAUTH_VNODE_WRITE_DATA
        (Z.lor KAUTH_VNODE_APPEND_DATA
          (Z.lor KAUTH_VNODE_WRITE_SECURITY KAUTH_VNODE_LINKTARGET)))).

Definition offlineEmptyMask : Z :=
  Z.lor KAUTH_VNODE_ACCESS
    (Z.lor KAUTH_VNODE_DELETE_CHILD
      (Z.lor KAUTH_VNODE_DELETE KAUTH_VNODE_READ_EXTATTRIBUTES)).

Definition offlineEmptyDirMask : Z :=
  Z.lor KAUTH_VNODE_READ_ATTRIBUTES
    (Z.lor KAUTH_VNODE_READ_SECURITY
      (Z.lor KAUTH_VNODE_LIST_DIRECTORY KAUTH_VNODE_SEARCH)).

Definition enumerateMask : Z :=
  Z.lor KAUTH_VNODE_LIST_DIRECTORY
    (Z.lor KAUTH_VNODE_SEARCH
      (Z.lor KAUTH_VNODE_READ_SECURITY
        (Z.lor KAUTH_VNODE_READ_ATTRIBUTES KAUTH_VNODE_READ_EXTATTRIBUTES))).

Definition hydrateMask : Z :=
  Z.lor KAUTH_VNODE_READ_ATTRIBUTES
    (Z.lor KAUTH_VNODE_WRITE_ATTRIBUTES
      (Z.lor KAUTH_VNODE_READ_EXTATTRIBUTES
        (Z.lor KAUTH_VNODE_WRITE_EXTATTRIBUTES
          (Z.lor KAUTH_VNODE_READ_DATA
            (Z.lor KAUTH_VNODE_WRITE_DATA KAUTH_VNODE_EXECUTE))))).

(** The branch of an offline root (lines 223 to 273). *)
Definition HandleOfflineRoot (root : VirtualizationRoot) (vnodeType : vtype)
    (currentVnodeFileFlags action pid : Z) (procname : string) : Gate GateOutcome :=
  let rootIndex := index root in
  if 0 <=? rootIndex then
    let vnodeIsDir := vtype_is_VDIR vnodeType in
    if ActionBitsNotSet action KAUTH_VNODE_ACCESS && ActionBitIsSet action offlineWriteMask then
      KextLog (Log_OfflineWriteDenied action pid procname vnodeIsDir) ;;
      ret (Verdict KAUTH_RESULT_DENY)
    else if FileFlagsBitIsSet currentVnodeFileFlags FileFlags_IsEmpty then
      if ActionBitIsSet action offlineEmptyMask then
        ret (Verdict KAUTH_RESULT_DEFER)
      else if vnodeIsDir && ActionBitIsSet action offlineEmptyDirMask then
        ret (Verdict KAUTH_RESULT_DEFER)
      else
        KextLog (Log_OfflineEmptyDenied action pid procname vnodeIsDir) ;;
        ret (Verdict KAUTH_RESULT_DENY)
    else ret (Verdict KAUTH_RESULT_DEFER)
  else ret (Verdict KAUTH_RESULT_DEFER).

(** The branch of a root with a provider (lines 275 to 335). *)
Definition HandleLiveRoot (root : VirtualizationRoot) (vnodeType : vtype)
    (currentVnodeFileFlags action pid : Z) : Gate GateOutcome :=
  if pid =? providerPid root then ret (Verdict KAUTH_RESULT_DEFER)
  else if vtype_is_VDIR vnodeType then
    if ActionBitIsSet action enumerateMask then
      if FileFlagsBitIsSet currentVnodeFileFlags FileFlags_IsEmpty then
        ret (RoundTrip root MessageType_KtoU_EnumerateDirectory)
      else ret (Verdict KAUTH_RESULT_DEFER)
    else ret (Verdict KAUTH_RESULT_DEFER)
  else
    if ActionBitIsSet action hydrateMask then
      if FileFlagsBitIsSet currentVnodeFileFlags FileFlags_IsEmpty then
        ret (RoundTrip root MessageType_KtoU_HydrateFile)
      else ret (Verdict KAUTH_RESULT_DEFER)
    else ret (Verdict KAUTH_RESULT_DEFER).

Definition HandleVnodeOperation (context : vfs_context) (currentVnode : vnode)
    (action : Z) : Gate GateOutcome :=
  if negb (vn_allowedFilesystem currentVnode) then ret (Verdict KAUTH_RESULT_DEFER)
  else
    let vnodeType := vn_vtype currentVnode in
    ignore ← ShouldIgnoreVnodeType vnodeType currentVnode;
    if ignore : bool then ret (Verdict KAUTH_RESULT_DEFER)
    else
      let pid := GetPid context in
      currentVnodeFileFlags ← ReadVNodeFileFlags currentVnode context;
      if negb (FileFlagsBitIsSet currentVnodeFileFlags FileFlags_IsInVirtualizationRoot)
      then ret (Verdict KAUTH_RESULT_DEFER)
      else
        procname ← proc_name context;
        if FileFlagsBitIsSet currentVnodeFileFlags FileFlags_IsEmpty
           && IsFileSystemCrawler procname
        then ret (Verdict KAUTH_RESULT_DENY)
        else
          root ← VirtualizationRoots_FindForVnode currentVnode;
          match root with
          | None =>
              KextLog Log_NoRootFound ;; ret (Verdict KAUTH_RESULT_DEFER)
          | Some root =>
              if negb (providerUserClient root)
              then HandleOfflineRoot root vnodeType currentVnodeFileFlags action pid procname
              else HandleLiveRoot root vnodeType currentVnodeFileFlags action pid
          end.


(** ** Conditions and reference functions used in the statements *)

Definition crawlerNames : list string :=
  ["mds"; "mdworker"; "mds_stores"; "fseventsd"; "Spotlight"]%string.

(** The condition under which the crawler check of lines 196 to 211 is reached
    and denies. *)
Definition crawlerDenied (context : vfs_context) (vn : vnode) : bool :=
  vn_allowedFilesystem vn
  && negb (fst (ShouldIgnoreVnodeType (vn_vtype vn) vn))
  && FileFlagsBitIsSet (vn_va_flags vn) FileFlags_IsInVirtualizationRoot
  && FileFlagsBitIsSet (vn_va_flags vn) FileFlags_IsEmpty
  && IsFileSystemCrawler (ctx_procname context).

(** The condition under which the handler resolves the root of the vnode
    (line 213): none of the earlier exits is taken. *)
Definition reachesRootLookup (context : vfs_context) (vn : vnode) : bool :=
  vn_allowedFilesystem vn
  && negb (fst (ShouldIgnoreVnodeType (vn_vtype vn) vn))
  && FileFlagsBitIsSet (vn_va_flags vn) FileFlags_IsInVirtualizationRoot
  && negb (FileFlagsBitIsSet (vn_va_flags vn) FileFlags_IsEmpty
           && IsFileSystemCrawler (ctx_procname context)).

Definition with_vtype (vn : vnode) (t : vtype) : vnode :=
  {| vn_allowedFilesystem := vn_allowedFilesystem vn;
     vn_vtype := t;
     vn_va_flags := vn_va_flags vn;
     vn_root := vn_root vn;
     vn_path := vn_path vn |}.

(** What the handler does once the type switch has let the vnode through
    (lines 182 to 335). *)
Definition afterTypeSwitch (context : vfs_context) (vn : vnode) (action : Z)
  : Gate GateOutcome :=
  let vnodeType := vn_vtype vn in
  let pid := GetPid context in
  currentVnodeFileFlags ← ReadVNodeFileFlags vn context;
  if negb (FileFlagsBitIsSet currentVnodeFileFlags FileFlags_IsInVirtualizationRoot)
  then ret (Verdict KAUTH_RESULT_DEFER)
  else
    procname ← proc_name context;
    if FileFlagsBitIsSet currentVnodeFileFlags FileFlags_IsEmpty
       && IsFileSystemCrawler procname
    then ret (Verdict KAUTH_RESULT_DENY)
    else
      root ← VirtualizationRoots_FindForVnode vn;
      match root with
      | None => KextLog Log_NoRootFound ;; ret (Verdict KAUTH_RESULT_DEFER)
      | Some root =>
          if negb (providerUserClient root)
          then HandleOfflineRoot root vnodeType currentVnodeFileFlags action pid procname
          else HandleLiveRoot root vnodeType currentVnodeFileFlags action pid
      end.

(** The offline policy in the words of the specification: [includes action b]
    reads "the requested access bits include b". *)
Definition includes (action bit : Z) : bool := negb (Z.land action bit =? 0).

Definition offlinePolicy (action : Z) (isDirectory isEmpty : bool) : Z :=
  if (includes action KAUTH_VNODE_WRITE_ATTRIBUTES
      || includes action KAUTH_VNODE_WRITE_EXTATTRIBUTES
      || includes action KAUTH_VNODE_WRITE_DATA
      || includes action KAUTH_VNODE_APPEND_DATA
      || includes action KAUTH_VNODE_WRITE_SECURITY
      || includes action KAUTH_VNODE_LINKTARGET)
     && negb (includes action KAUTH_VNODE_ACCESS)
  then KAUTH_RESULT_DENY
  else if isEmpty then
    if includes action KAUTH_VNODE_ACCESS
       || includes action KAUTH_VNODE_DELETE
       || includes action KAUTH_VNODE_DELETE_CHILD
       || includes action KAUTH_VNODE_READ_EXTATTRIBUTES
       || isDirectory && (includes action KAUTH_VNODE_READ_ATTRIBUTES
                          || includes action KAUTH_VNODE_READ_SECURITY
                          || includes action KAUTH_VNODE_LIST_DIRECTORY
                          || includes action KAUTH_VNODE_SEARCH)
    then KAUTH_RESULT_DEFER
    else KAUTH_RESULT_DENY
  else KAUTH_RESULT_DEFER.

(** ** Sample inputs *)

Definition offlineRoot : VirtualizationRoot :=
  {| providerUserClient := false; providerPid := 0; path := "/repo"; index := 0 |}.

Definition liveRoot : VirtualizationRoot :=
  {| providerUserClient := true; providerPid := 42; path := "/repo"; index := 1 |}.

Definition placeholderFlags : Z :=
  Z.lor FileFlags_IsInVirtualizationRoot FileFlags_IsEmpty.

Definition sampleVnode (t : vtype) (flags : Z) (root : option VirtualizationRoot) : vnode :=
  {| vn_allowedFilesystem := true;
     vn_vtype := t;
     vn_va_flags := flags;
     vn_root := root;
     vn_path := Some "/repo/a"%string |}.

Definition process (pid : Z) (name : string) : vfs_context :=
  {| ctx_pid := pid; ctx_procname := name |}.

(** ** The registry of outstanding messages *)

(** A stack frame of [TrySendRequestAndWaitForResponse] is known by its
    address; [&message], the record allocated in it, is what the registry
    links and the channel the thread sleeps on. *)
Abbreviation addr := nat.

(** [struct OutstandingMessage]. Of the request header (Message.h, not among
    the sources) the fields [Message_Init] is given are kept. *)
Record OutstandingMessage : Type := {
  request_messageId : Z;
  request_messageType : MessageType;
  request_pid : Z;
  response : MessageType;
  receivedResponse : bool
}.

Definition set_request (messageId : Z) (messageType : MessageType) (pid : Z)
    (m : OutstandingMessage) : OutstandingMessage :=
  {| request_messageId := messageId;
     request_messageType := messageType;
     request_pid := pid;
     response := response m;
     receivedResponse := receivedResponse m |}.

Definition set_response (responseType : MessageType) (m : OutstandingMessage)
  : OutstandingMessage :=
  {| request_messageId := request_messageId m;
     request_messageType := request_messageType m;
     request_pid := request_pid m;
     response := responseType;
     receivedResponse := receivedResponse m |}.

Definition set_receivedResponse (b : bool) (m : OutstandingMessage)
  : OutstandingMessage :=
  {| request_messageId := request_messageId m;
     request_messageType := request_messageType m;
     request_pid := request_pid m;
     response := response m;
     receivedResponse := b |}.

(** <sys/queue.h>: the list is intrusive, an element is linked at most once;
    the model keeps the addresses in list order. [LIST_REMOVE] unlinks through
    the link fields of the element itself and has a meaning only for a linked
    element: the model leaves the list as it is for any other and the caller
    records that this happened ([unlinkedRemove] below). *)
Definition LIST_INSERT_HEAD (elm : addr) (head : list addr) : list addr :=
  elm :: head.

Definition LIST_REMOVE (elm : addr) (head : list addr) : list addr :=
  filter (λ other, other ≠ elm) head.

(** ** The round trip as a state machine *)

(** The program points of [TrySendRequestAndWaitForResponse] between which
    shared memory is touched; the comment gives the source lines a step from
    the point executes. *)
Inductive Label : Type :=
| L_entry            (* 383-397: receivedResponse = false, vn_getpath *)
| L_nextMessageId    (* 399-402: OSIncrementAtomic, Message_Init *)
| L_checkAndInsert   (* 404-414: the critical section *)
| L_send             (* 416-422: ActiveProvider_SendMessage *)
| L_wait_received    (* 424: reads message.receivedResponse *)
| L_wait_shutdown    (* 425-428: reads s_isShuttingDown, Sleep *)
| L_after_wait       (* 430-434: reads s_isShuttingDown *)
| L_response         (* 436-448: reads message.response *)
| L_cleanup          (* 450-455: the critical section with LIST_REMOVE *)
| L_returned.        (* 457, and 394 *)

(** The arguments of one call, with the value [ActiveProvider_SendMessage]
    returns to it if it gets that far. *)
Record Call : Type := {
  call_root : VirtualizationRoot;
  call_messageType : MessageType;
  call_vnode : vnode;
  call_pid : Z;
  call_procname : string;
  call_sendResult : Z
}.

(** A frame: the locals, the two out-parameters ([kauthError] is [None] until
    the call writes to it) and the ghost flag [unlinkedRemove]. *)
Record Frame : Type := {
  call : Call;
  pc : Label;
  message : OutstandingMessage;
  relativePath : string;
  isShuttingDown : bool;
  result : bool;
  kauthResult : Z;
  kauthError : option Z;
  unlinkedRemove : bool
}.

Definition set_pc (l : Label) (f : Frame) : Frame :=
  {| call := call f; pc := l; message := message f; relativePath := relativePath f;
     isShuttingDown := isShuttingDown f; result := result f;
     kauthResult := kauthResult f; kauthError := kauthError f;
     unlinkedRemove := unlinkedRemove f |}.

Definition set_message (m : OutstandingMessage) (f : Frame) : Frame :=
  {| call := call f; pc := pc f; message := m; relativePath := relativePath f;
     isShuttingDown := isShuttingDown f; result := result f;
     kauthResult := kauthResult f; kauthError := kauthError f;
     unlinkedRemove := unlinkedRemove f |}.

Definition set_relativePath (p : string) (f : Frame) : Frame :=
  {| call := call f; pc := pc f; message := message f; relativePath := p;
     isShuttingDown := isShuttingDown f; result := result f;
     kauthResult := kauthResult f; kauthError := kauthError f;
     unlinkedRemove := unlinkedRemove f |}.

Definition set_isShuttingDown (b : bool) (f : Frame) : Frame :=
  {| call := call f; pc := pc f; message := message f; relativePath := relativePath f;
     isShuttingDown := b; result := result f;
     kauthResult := kauthResult f; kauthError := kauthError f;
     unlinkedRemove := unlinkedRemove f |}.

Definition set_result (b : bool) (f : Frame) : Frame :=
  {| call := call f; pc := pc f; message := message f; relativePath := relativePath f;
     isShuttingDown := isShuttingDown f; result := b;
     kauthResult := kauthResult f; kauthError := kauthError f;
     unlinkedRemove := unlinkedRemove f |}.

Definition set_kauthResult (r : Z) (f : Frame) : Frame :=
  {| call := call f; pc := pc f; message := message f; relativePath := relativePath f;
     isShuttingDown := isShuttingDown f; result := result f;
     kauthResult := r; kauthError := kauthError f;
     unlinkedRemove := unlinkedRemove f |}.

Definition set_kauthError (e : Z) (f : Frame) : Frame :=
  {| call := call f; pc := pc f; message := message f; relativePath := relativePath f;
     isShuttingDown := isShuttingDown f; result := result f;
     kauthResult := kauthResult f; kauthError := Some e;
     unlinkedRemove := unlinkedRemove f |}.

Definition set_unlinkedRemove (b : bool) (f : Frame) : Frame :=
  {| call := call f; pc := pc f; message := message f; relativePath := relativePath f;
     isShuttingDown := isShuttingDown f; result := result f;
     kauthResult := kauthResult f; kauthError := kauthError f;
     unlinkedRemove := b |}.

(** The static state of the file and the frames of the calls in progress. *)
Record World : Type := {
  s_outstandingMessages : list addr;
  s_isShuttingDown : bool;
  s_nextMessageId : Z;
  frames : gmap addr Frame
}.

Definition set_outstandingMessages (l : list addr) (w : World) : World :=
  {| s_outstandingMessages := l; s_isShuttingDown := s_isShuttingDown w;
     s_nextMessageId := s_nextMessageId w; frames := frames w |}.

Definition set_s_isShuttingDown (b : bool) (w : World) : World :=
  {| s_outstandingMessages := s_outstandingMessages w; s_isShuttingDown := b;
     s_nextMessageId := s_nextMessageId w; frames := frames w |}.

Definition set_nextMessageId (n : Z) (w : World) : World :=
  {| s_outstandingMessages := s_outstandingMessages w;
     s_isShuttingDown := s_isShuttingDown w;
     s_nextMessageId := n; frames := frames w |}.

Definition set_frames (fs : gmap addr Frame) (w : World) : World :=
  {| s_outstandingMessages := s_outstandingMessages w;
     s_isShuttingDown := s_isShuttingDown w;
     s_nextMessageId := s_nextMessageId w; frames := fs |}.

Definition set_frame (a : addr) (f : Frame) (w : World) : World :=
  set_frames (<[a := f]> (frames w)) w.

(** The state [KauthHandler_Init] leaves. *)
Definition KauthHandler_Init : World :=
  {| s_outstandingMessages := [];
     s_isShuttingDown := false;
     s_nextMessageId := 1;
     frames := ∅ |}.

(** [OSIncrementAtomic] on the [int] counter, and the conversion of the [int]
    it returns to the [uint64_t] parameter of [Message_Init]. *)
Definition wrap_int32 (z : Z) : Z := (z + 2 ^ 31) mod 2 ^ 32 - 2 ^ 31.
Definition to_uint64 (z : Z) : Z := z mod 2 ^ 64.

Fixpoint string_drop (n : nat) (s : string) : string :=
  match n, s with
  | O, _ => s
  | S n', String _ rest => string_drop n' rest
  | S _, EmptyString => EmptyString
  end.

Definition GetRelativePath (path root : string) : string :=
  let relativePath := string_drop (String.length root) path in
  match relativePath with
  | String "/"%char rest => rest
  | _ => relativePath
  end.

(** One step of the thread whose frame is at [a]. *)
Definition TrySendRequestAndWaitForResponse_step (a : addr) (w : World) : World :=
  match frames w !! a with
  | None => w
  | Some f =>
    match pc f with
    | L_entry =>
        let f := set_message (set_receivedResponse false (message f)) f in
        match vn_path (call_vnode (call f)) with
        | None =>
            set_frame a (set_pc L_returned (set_kauthResult KAUTH_RESULT_DENY f)) w
        | Some vnodePath =>
            let f := set_relativePath
                       (GetRelativePath vnodePath (path (call_root (call f)))) f in
            set_frame a (set_pc L_nextMessageId f) w
        end
    | L_nextMessageId =>
        let nextMessageId := s_nextMessageId w in
        let w := set_nextMessageId (wrap_int32 (nextMessageId + 1)) w in
        let f := set_message
                   (set_request (to_uint64 nextMessageId)
                      (call_messageType (call f)) (call_pid (call f)) (message f)) f in
        set_frame a (set_pc L_checkAndInsert f) w
    | L_checkAndInsert =>
        let f := set_isShuttingDown (s_isShuttingDown w) f in
        let w := if negb (isShuttingDown f)
                 then set_outstandingMessages
                        (LIST_INSERT_HEAD a (s_outstandingMessages w)) w
                 else w in
        set_frame a (set_pc L_send f) w
    | L_send =>
        if negb (isShuttingDown f) && negb (call_sendResult (call f) =? 0)
        then set_frame a (set_pc L_cleanup (set_kauthResult KAUTH_RESULT_DEFER f)) w
        else set_frame a (set_pc L_wait_received f) w
    | L_wait_received =>
        if negb (receivedResponse (message f))
        then set_frame a (set_pc L_wait_shutdown f) w
        else set_frame a (set_pc L_after_wait f) w
    | L_wait_shutdown =>
        if negb (s_isShuttingDown w)
        then set_frame a (set_pc L_wait_received f) w
        else set_frame a (set_pc L_after_wait f) w
    | L_after_wait =>
        if s_isShuttingDown w
        then set_frame a (set_pc L_cleanup (set_kauthResult KAUTH_RESULT_DENY f)) w
        else set_frame a (set_pc L_response f) w
    | L_response =>
        if is_Response_Success (response (message f))
        then set_frame a
               (set_pc L_cleanup (set_result true (set_kauthResult KAUTH_RESULT_DEFER f))) w
        else set_frame a
               (set_pc L_cleanup (set_kauthResult KAUTH_RESULT_DENY (set_kauthError EAGAIN f))) w
    | L_cleanup =>
        let f := set_unlinkedRemove
                   (bool_decide (a ∉ s_outstandingMessages w)) f in
        let w := set_outstandingMessages
                   (LIST_REMOVE a (s_outstandingMessages w)) w in
        set_frame a (set_pc L_returned f) w
    | L_returned => w
    end
  end.

Abbreviation step := TrySendRequestAndWaitForResponse_step.

(** The call itself: a frame is set up at [a], free or left by a call that
    has returned, over whatever the stack holds there. [HandleVnodeOperation]
    passes its own [kauthResult], initialised to defer, and the [kauthError]
    of its caller. *)
Definition TrySendRequestAndWaitForResponse_enter (a : addr) (c : Call)
    (stack : OutstandingMessage) (w : World) : World :=
  let f := {| call := c; pc := L_entry; message := stack; relativePath := "";
              isShuttingDown := false; result := false;
              kauthResult := KAUTH_RESULT_DEFER; kauthError := None;
              unlinkedRemove := false |} in
  match frames w !! a with
  | None => set_frame a f w
  | Some old =>
      match pc old with
      | L_returned => set_frame a f w
      | _ => w
      end
  end.

(** [HandleVnodeOperation] on the world: a verdict of the gate's own leaves the
    world alone, a round trip becomes a call on the frame at [a]. *)
Definition HandleVnodeOperation_enter (a : addr) (context : vfs_context)
    (currentVnode : vnode) (action : Z) (sendResult : Z)
    (stack : OutstandingMessage) (w : World) : World :=
  match fst (HandleVnodeOperation context currentVnode action) with
  | Verdict _ => w
  | RoundTrip root messageType =>
      TrySendRequestAndWaitForResponse_enter a
        {| call_root := root;
           call_messageType := messageType;
           call_vnode := currentVnode;
           call_pid := GetPid context;
           call_procname := ctx_procname context;
           call_sendResult := sendResult |} stack w
  end.

(** ** Response delivery and shutdown *)

Inductive Effect : Type :=
| Eff_Mutex_Acquire
| Eff_Mutex_Release
| Eff_wakeup (channel : addr).

(** The [LIST_FOREACH] of lines 352 to 364, leaving at the first match. *)
Fixpoint deliverResponse (messageId : Z) (responseType : MessageType)
    (head : list addr) (fs : gmap addr Frame) : gmap addr Frame * list Effect :=
  match head with
  | [] => (fs, [])
  | outstandingMessage :: rest =>
      match fs !! outstandingMessage with
      | Some f =>
          if request_messageId (message f) =? messageId
          then (<[outstandingMessage :=
                    set_message
                      (set_receivedResponse true
                         (set_response responseType (message f))) f]> fs,
                [Eff_wakeup outstandingMessage])
          else deliverResponse messageId responseType rest fs
      | None => deliverResponse messageId responseType rest fs
      end
  end.

Definition KauthHandler_HandleKernelMessageResponse (messageId : Z)
    (responseType : MessageType) (w : World) : World * list Effect :=
  match responseType with
  | MessageType_Response_Success
  | MessageType_Response_Fail =>
      let '(fs, woken) :=
        deliverResponse messageId responseType (s_outstandingMessages w) (frames w) in
      (set_frames fs w, [Eff_Mutex_Acquire] ++ woken ++ [Eff_Mutex_Release])
  | _ => (w, [])
  end.

(** The critical section of [AbortAllOutstandingEvents]. The loop that follows
    it only sleeps and reads the counter of active events. *)
Definition AbortAllOutstandingEvents (w : World) : World * list Effect :=
  (set_s_isShuttingDown true w,
   [Eff_Mutex_Acquire] ++ map Eff_wakeup (s_outstandingMessages w)
   ++ [Eff_Mutex_Release]).

(** ** Schedules *)

(** What can happen next in the system. A sleeping thread needs no wakeup to
    take its next step: [Sleep] times out after five seconds, so the effects
    of the two functions above bear on latency only and a schedule may run a
    thread at any time. A schedule covers one life of the listener:
    [KauthHandler_Init] gives its first world and is not an action. *)
Inductive Action : Type :=
| Act_call (a : addr) (c : Call) (stack : OutstandingMessage)
| Act_step (a : addr)
| Act_response (messageId : Z) (responseType : MessageType)
| Act_abort.

Definition exec (act : Action) (w : World) : World :=
  match act with
  | Act_call a c stack => TrySendRequestAndWaitForResponse_enter a c stack w
  | Act_step a => TrySendRequestAndWaitForResponse_step a w
  | Act_response messageId responseType =>
      fst (KauthHandler_HandleKernelMessageResponse messageId responseType w)
  | Act_abort => fst (AbortAllOutstandingEvents w)
  end.

Definition run (acts : list Action) (w : World) : World :=
  foldl (λ w act, exec act w) w acts.

(** The steps thread [a] takes in a schedule, and whether the schedule starts
    a new call on its frame. *)
Definition is_step_of (a : addr) (act : Action) : bool :=
  match act with Act_step b => bool_decide (b = a) | _ => false end.

Definition is_call_of (a : addr) (act : Action) : bool :=
  match act with Act_call b _ _ => bool_decide (b = a) | _ => false end.

Definition own_steps (a : addr) (acts : list Action) : nat :=
  length (filter (λ act, is_step_of a act = true) acts).

Definition same_call (a : addr) (acts : list Action) : Prop :=
  Forall (λ act, is_call_of a act = false) acts.

(** The response types the switch of the delivery function has no case for. *)
Definition is_Success_or_Fail (t : MessageType) : bool :=
  match t with
  | MessageType_Response_Success | MessageType_Response_Fail => true
  | _ => false
  end.

(** A thread in its wait loop with no response yet. *)
Definition waiting (a : addr) (w : World) : Prop :=
  ∃ f, frames w !! a = Some f
       ∧ pc f ∈ [L_wait_received; L_wait_shutdown]
       ∧ receivedResponse (message f) = false.

(** The provider's two answers, as the specification names them. *)
Inductive ResponseKind : Type := Success | Fail.

Definition responseType_of (k : ResponseKind) : MessageType :=
  match k with
  | Success => MessageType_Response_Success
  | Fail => MessageType_Response_Fail
  end.

(** ** Sample calls and schedules *)

Definition stackGarbage : OutstandingMessage :=
  {| request_messageId := 3735928559;
     request_messageType := MessageType_Other 170;
     request_pid := 0;
     response := MessageType_Response_Success;
     receivedResponse := true |}.

Definition hydrateCall (sendResult : Z) : Call :=
  {| call_root := liveRoot;
     call_messageType := MessageType_KtoU_HydrateFile;
     call_vnode := sampleVnode VREG placeholderFlags (Some liveRoot);
     call_pid := 77;
     call_procname := "cat";
     call_sendResult := sendResult |}.

(** A thread enters, inserts its record, sends and starts to wait. *)
Definition untilWaiting (a : addr) (sendResult : Z) : list Action :=
  [Act_call a (hydrateCall sendResult) stackGarbage;
   Act_step a; Act_step a; Act_step a; Act_step a].

(** ** Reachable worlds and their invariant *)

Definition reachable (w : World) : Prop :=
  ∃ acts, w = run acts KauthHandler_Init.

(** Where the frame at [a] stands with respect to the registry: its record is
    linked exactly between a check that saw no shutdown and the cleanup. *)
Definition frame_wf (w : World) (a : addr) (f : Frame) : Prop :=
  match pc f with
  | L_entry | L_nextMessageId | L_checkAndInsert =>
      (a ∉ s_outstandingMessages w) ∧ result f = false
  | L_send | L_wait_received | L_wait_shutdown | L_after_wait | L_response =>
      (a ∈ s_outstandingMessages w ↔ isShuttingDown f = false)
      ∧ (isShuttingDown f = true → s_isShuttingDown w = true)
      ∧ result f = false
  | L_cleanup =>
      (a ∈ s_outstandingMessages w ↔ isShuttingDown f = false)
      ∧ (isShuttingDown f = true → s_isShuttingDown w = true)
  | L_returned => a ∉ s_outstandingMessages w
  end.

Definition wf (w : World) : Prop :=
  (∀ a f, frames w !! a = Some f → frame_wf w a f)
  ∧ (∀ a, a ∈ s_outstandingMessages w → is_Some (frames w !! a))
  ∧ NoDup (s_outstandingMessages w).

(** The actions that leave a waiting thread waiting: anything but a Success or
    Fail response, a shutdown, or a new call on its frame. *)
Definition keeps_waiting (a : addr) (act : Action) : bool :=
  match act with
  | Act_call b _ _ => negb (bool_decide (b = a))
  | Act_step _ => true
  | Act_response _ responseType => negb (is_Success_or_Fail responseType)
  | Act_abort => false
  end.

(** ** The ways out of a round trip *)

(** Each predicate places the thread at [a] on one way to its return; [k]
    bounds the steps the thread still has to take. *)

(** Shutdown observed: at the check before the insertion or in the wait. *)
Definition shutdown_path (a : addr) (e0 : option Z) (k : nat) (w : World) : Prop :=
  s_isShuttingDown w = true
  ∧ ∃ f, frames w !! a = Some f ∧ kauthError f = e0 ∧
      match pc f with
      | L_checkAndInsert => (6 ≤ k)%nat ∧ result f = false
      | L_send => (5 ≤ k)%nat ∧ isShuttingDown f = true ∧ result f = false
      | L_wait_received => (4 ≤ k)%nat ∧ result f = false
      | L_wait_shutdown => (3 ≤ k)%nat ∧ result f = false
      | L_after_wait => (2 ≤ k)%nat ∧ result f = false
      | L_cleanup => (1 ≤ k)%nat ∧ kauthResult f = KAUTH_RESULT_DENY ∧ result f = false
      | L_returned => kauthResult f = KAUTH_RESULT_DENY ∧ result f = false
      | _ => False
      end.

(** The transport refused the message of an inserted record. *)
Definition send_failure_path (a : addr) (k : nat) (w : World) : Prop :=
  wf w
  ∧ ∃ f, frames w !! a = Some f ∧
      match pc f with
      | L_send => (2 ≤ k)%nat ∧ isShuttingDown f = false
                  ∧ call_sendResult (call f) ≠ 0
      | L_cleanup => (1 ≤ k)%nat ∧ isShuttingDown f = false
                     ∧ kauthResult f = KAUTH_RESULT_DEFER ∧ result f = false
      | L_returned => kauthResult f = KAUTH_RESULT_DEFER ∧ result f = false
                      ∧ unlinkedRemove f = false
      | _ => False
      end.

(** A response other than Success was read. *)
Definition fail_path (a : addr) (k : nat) (w : World) : Prop :=
  ∃ f, frames w !! a = Some f ∧
    match pc f with
    | L_cleanup => (1 ≤ k)%nat ∧ kauthResult f = KAUTH_RESULT_DENY
                   ∧ kauthError f = Some EAGAIN ∧ result f = false
    | L_returned => kauthResult f = KAUTH_RESULT_DENY
                    ∧ kauthError f = Some EAGAIN ∧ result f = false
    | _ => False
    end.

(** ** Sample worlds *)

(** Thread 1 has its message id and is about to take the mutex when the
    shutdown begins. *)
Definition atCheckUnderShutdown : World :=
  run [Act_call 1%nat (hydrateCall 0) stackGarbage; Act_step 1; Act_step 1; Act_abort]
    KauthHandler_Init.

(** Thread 1 has inserted its record and hands the message to a transport
    that will answer 5. *)
Definition atSendRefused : World :=
  run [Act_call 1%nat (hydrateCall 5) stackGarbage; Act_step 1; Act_step 1; Act_step 1]
    KauthHandler_Init.

(** Thread 1 sleeps in its wait loop. *)
Definition blockedInWait : World :=
  run (untilWaiting 1 0 ++ [Act_step 1]) KauthHandler_Init.

(** Thread 1 was answered Fail and is about to read the response. *)
Definition atResponseFail : World :=
  run [Act_response 1 MessageType_Response_Fail; Act_step 1; Act_step 1; Act_step 1]
    blockedInWait.

(** ** The bits that open a round trip *)

Definition enumerateBits : list Z :=
  [KAUTH_VNODE_LIST_DIRECTORY; KAUTH_VNODE_SEARCH; KAUTH_VNODE_READ_SECURITY;
   KAUTH_VNODE_READ_ATTRIBUTES; KAUTH_VNODE_READ_EXTATTRIBUTES].

Definition hydrateBits : list Z :=
  [KAUTH_VNODE_READ_ATTRIBUTES; KAUTH_VNODE_WRITE_ATTRIBUTES;
   KAUTH_VNODE_READ_EXTATTRIBUTES; KAUTH_VNODE_WRITE_EXTATTRIBUTES;
   KAUTH_VNODE_READ_DATA; KAUTH_VNODE_WRITE_DATA; KAUTH_VNODE_EXECUTE].

(** "The requested access bits include one of [bits]". *)
Definition includesAny (action : Z) (bits : list Z) : Prop :=
  ∃ bit, bit ∈ bits ∧ includes action bit = true.

(** ** Further invariants of the round trip *)



(** What a call has written to its outputs so far. *)
Definition outputs_wf (f : Frame) : Prop :=
  (kauthResult f = KAUTH_RESULT_DEFER ∨ kauthResult f = KAUTH_RESULT_DENY)
  ∧ (pc f ∈ [L_cleanup; L_returned]
     ∨ (result f = false ∧ kauthError f = None))
  ∧ (result f = true →
     kauthResult f = KAUTH_RESULT_DEFER ∧ kauthError f = None)
  ∧ (kauthError f = None
     ∨ (kauthError f = Some EAGAIN ∧ kauthResult f = KAUTH_RESULT_DENY
        ∧ result f = false)).

Definition all_outputs_wf (w : World) : Prop :=
  ∀ a f, frames w !! a = Some f → outputs_wf f.

(** The frames whose record carries the id of the current call. *)
Definition has_id (f : Frame) : bool :=
  match pc f with
  | L_entry | L_nextMessageId | L_returned => false
  | _ => true
  end.

Definition ids_wf (w : World) : Prop :=
  1 <= s_nextMessageId w <= 2 ^ 31 - 1
  ∧ (∀ a f, frames w !! a = Some f → has_id f = true →
            1 <= request_messageId (message f) < s_nextMessageId w)
  ∧ (∀ a b f g, frames w !! a = Some f → frames w !! b = Some g →
                has_id f = true → has_id g = true →
                request_messageId (message f) = request_messageId (message g) →
                a = b).

(** No two registered records carry the same id. *)
Definition unique_ids (w : World) : Prop :=
  ∀ a b f g,
    a ∈ s_outstandingMessages w → b ∈ s_outstandingMessages w →
    frames w !! a = Some f → frames w !! b = Some g →
    request_messageId (message f) = request_messageId (message g) → a = b.

(** The way out of a wait that a response of kind [k] has ended, the
    shutdown flag not being set. *)
Definition answered_path (a : addr) (k : ResponseKind) (e0 : option Z)
    (n : nat) (w : World) : Prop :=
  wf w ∧ s_isShuttingDown w = false
  ∧ ∃ f, frames w !! a = Some f ∧
      match pc f with
      | L_wait_shutdown =>
          (5 ≤ n)%nat ∧ kauthError f = e0
          ∧ receivedResponse (message f) = true
          ∧ response (message f) = responseType_of k
      | L_wait_received =>
          (4 ≤ n)%nat ∧ kauthError f = e0
          ∧ receivedResponse (message f) = true
          ∧ response (message f) = responseType_of k
      | L_after_wait | L_response =>
          (match pc f with L_after_wait => 3 | _ => 2 end ≤ n)%nat
          ∧ kauthError f = e0
          ∧ response (message f) = responseType_of k
      | L_cleanup | L_returned =>
          (match pc f with L_cleanup => 1 | _ => 0 end ≤ n)%nat
          ∧ match k with
            | Success => result f = true
                         ∧ kauthResult f = KAUTH_RESULT_DEFER
                         ∧ kauthError f = e0
            | Fail => result f = false
                      ∧ kauthResult f = KAUTH_RESULT_DENY
                      ∧ kauthError f = Some EAGAIN
            end
      | _ => False
      end.

(** A Success response was read. *)
Definition success_path (a : addr) (e0 : option Z) (k : nat) (w : World) : Prop :=
  wf w
  ∧ ∃ f, frames w !! a = Some f ∧
      match pc f with
      | L_cleanup => (1 ≤ k)%nat ∧ result f = true
                     ∧ kauthResult f = KAUTH_RESULT_DEFER ∧ kauthError f = e0
      | L_returned => result f = true
                      ∧ kauthResult f = KAUTH_RESULT_DEFER ∧ kauthError f = e0
      | _ => False
      end.

(** ** The counter of active events *)

(** A call of [HandleVnodeOperation] between its [atomic_fetch_add] (line
    153) and its [atomic_fetch_sub] (line 338): classifying (lines 155 to
    335, up to a verdict or to the call of the round trip), inside
    [TrySendRequestAndWaitForResponse], or at [CleanupAndReturn] with the
    verdict it is about to return. *)
Inductive Invocation : Type :=
| Inv_classifying (context : vfs_context) (currentVnode : vnode) (action : Z)
| Inv_roundTrip
| Inv_leaving (kauthResult : Z).

(** The world together with [s_numActiveKauthEvents], an [atomic_int], and
    the calls of the listener in progress, known by the address of their
    frame. *)
Record Kext : Type := {
  kext_world : World;
  s_numActiveKauthEvents : Z;
  invocations : gmap addr Invocation
}.

Definition Kext_boot : Kext :=
  {| kext_world := KauthHandler_Init;
     s_numActiveKauthEvents := 0;
     invocations := ∅ |}.

Inductive KAction : Type :=
| K_invoke (a : addr) (context : vfs_context) (currentVnode : vnode) (action : Z)
| K_classify (a : addr) (sendResult : Z) (stack : OutstandingMessage)
| K_step (a : addr)
| K_leave (a : addr)
| K_response (messageId : Z) (responseType : MessageType)
| K_abort.

Definition kexec (act : KAction) (k : Kext) : Kext :=
  match act with
  | K_invoke a context currentVnode action =>
      match invocations k !! a with
      | None =>
          {| kext_world := kext_world k;
             s_numActiveKauthEvents := wrap_int32 (s_numActiveKauthEvents k + 1);
             invocations :=
               <[a := Inv_classifying context currentVnode action]> (invocations k) |}
      | Some _ => k
      end
  | K_classify a sendResult stack =>
      match invocations k !! a with
      | Some (Inv_classifying context currentVnode action) =>
          match fst (HandleVnodeOperation context currentVnode action) with
          | Verdict kauthResult =>
              {| kext_world := kext_world k;
                 s_numActiveKauthEvents := s_numActiveKauthEvents k;
                 invocations := <[a := Inv_leaving kauthResult]> (invocations k) |}
          | RoundTrip _ _ =>
              {| kext_world :=
                   HandleVnodeOperation_enter a context currentVnode action
                     sendResult stack (kext_world k);
                 s_numActiveKauthEvents := s_numActiveKauthEvents k;
                 invocations := <[a := Inv_roundTrip]> (invocations k) |}
          end
      | _ => k
      end
  | K_step a =>
      match invocations k !! a, frames (kext_world k) !! a with
      | Some Inv_roundTrip, Some f =>
          match pc f with
          | L_returned =>
              {| kext_world := kext_world k;
                 s_numActiveKauthEvents := s_numActiveKauthEvents k;
                 invocations := <[a := Inv_leaving (kauthResult f)]> (invocations k) |}
          | _ =>
              {| kext_world := step a (kext_world k);
                 s_numActiveKauthEvents := s_numActiveKauthEvents k;
                 invocations := invocations k |}
          end
      | _, _ => k
      end
  | K_leave a =>
      match invocations k !! a with
      | Some (Inv_leaving _) =>
          {| kext_world := kext_world k;
             s_numActiveKauthEvents := wrap_int32 (s_numActiveKauthEvents k - 1);
             invocations := delete a (invocations k) |}
      | _ => k
      end
  | K_response messageId responseType =>
      {| kext_world :=
           fst (KauthHandler_HandleKernelMessageResponse messageId responseType
                  (kext_world k));
         s_numActiveKauthEvents := s_numActiveKauthEvents k;
         invocations := invocations k |}
  | K_abort =>
      {| kext_world := fst (AbortAllOutstandingEvents (kext_world k));
         s_numActiveKauthEvents := s_numActiveKauthEvents k;
         invocations := invocations k |}
  end.

Definition krun (acts : list KAction) (k : Kext) : Kext :=
  foldl (λ k act, kexec act k) k acts.

Definition kreachable (k : Kext) : Prop := ∃ acts, k = krun acts Kext_boot.


Definition kext_wf (k : Kext) : Prop :=
  wf (kext_world k)
  ∧ all_outputs_wf (kext_world k)
  ∧ s_numActiveKauthEvents k = wrap_int32 (Z.of_nat (size (invocations k)))
  ∧ (∀ a f, frames (kext_world k) !! a = Some f → pc f ≠ L_returned →
            invocations k !! a = Some Inv_roundTrip)
  ∧ (∀ a v, invocations k !! a = Some (Inv_leaving v) →
            v = KAUTH_RESULT_DEFER ∨ v = KAUTH_RESULT_DENY).

(** ** Start and stop *)

Module Lifecycle.

(** <mach/kern_return.h> *)
Definition KERN_SUCCESS : Z := 0.
Definition KERN_FAILURE : Z := 5.

(** Modelled from the spec: Locks.cpp is not among the sources. The mutex of
    the registry is a lock resource that [Mutex_Alloc] provides, valid or not,
    and that the stop releases; a released mutex is not valid any more. *)
Record State : Type := {
  s_vnodeListener : bool;
  s_outstandingMessagesMutex : bool;
  world : World
}.

(** What the kernel and the root table answer to one call of
    [KauthHandler_Init] or [KauthHandler_Cleanup]: whether [Mutex_Alloc] gives
    a valid mutex, the values of [VirtualizationRoots_Init] and
    [VirtualizationRoots_Cleanup], and whether [kauth_listen_scope] gives a
    listener. *)
Record Answers : Type := {
  Mutex_Alloc_valid : bool;
  VirtualizationRoots_Init_result : Z;
  kauth_listen_scope_ok : bool;
  VirtualizationRoots_Cleanup_result : Z
}.

Inductive Called : Type :=
| C_kauth_unlisten_scope
| C_AbortAllOutstandingEvents
| C_VirtualizationRoots_Cleanup
| C_Mutex_FreeMemory
| C_Mutex_Alloc
| C_VirtualizationRoots_Init
| C_kauth_listen_scope.

(** The statics before the first start. *)
Definition boot : State :=
  {| s_vnodeListener := false;
     s_outstandingMessagesMutex := false;
     world := {| s_outstandingMessages := [];
                 s_isShuttingDown := false;
                 s_nextMessageId := 0;
                 frames := ∅ |} |}.

(** [KauthHandler_Cleanup]. The call of [AbortAllOutstandingEvents] returns
    when its wait loop has ended; of the call the model keeps the critical
    section, which sets the flag. *)
Definition KauthHandler_Cleanup (ans : Answers) (s : State)
  : Z * State * list Called :=
  let result := KERN_SUCCESS in
  let '(result, listener, t1) :=
    if s_vnodeListener s
    then (result, false, [C_kauth_unlisten_scope])
    else (KERN_FAILURE, s_vnodeListener s, []) in
  let w := fst (AbortAllOutstandingEvents (world s)) in
  let result :=
    if negb (VirtualizationRoots_Cleanup_result ans =? 0)
    then KERN_FAILURE else result in
  let '(result, mutex, t2) :=
    if s_outstandingMessagesMutex s
    then (result, false, [C_Mutex_FreeMemory])
    else (KERN_FAILURE, s_outstandingMessagesMutex s, []) in
  (result,
   {| s_vnodeListener := listener;
      s_outstandingMessagesMutex := mutex;
      world := w |},
   t1 ++ [C_AbortAllOutstandingEvents; C_VirtualizationRoots_Cleanup] ++ t2).

Definition CleanupAndFail (ans : Answers) (s : State) (t : list Called)
  : Z * State * list Called :=
  let '(_, s', t') := KauthHandler_Cleanup ans s in
  (KERN_FAILURE, s', t ++ t').

Definition KauthHandler_Init (ans : Answers) (s : State)
  : Z * State * list Called :=
  if s_vnodeListener s then CleanupAndFail ans s []
  else
    let w := set_s_isShuttingDown false
               (set_nextMessageId 1 (set_outstandingMessages [] (world s))) in
    let s := {| s_vnodeListener := s_vnodeListener s;
                s_outstandingMessagesMutex := Mutex_Alloc_valid ans;
                world := w |} in
    if negb (s_outstandingMessagesMutex s)
    then CleanupAndFail ans s [C_Mutex_Alloc]
    else if negb (VirtualizationRoots_Init_result ans =? 0)
    then CleanupAndFail ans s [C_Mutex_Alloc; C_VirtualizationRoots_Init]
    else
      let s := {| s_vnodeListener := kauth_listen_scope_ok ans;
                  s_outstandingMessagesMutex := s_outstandingMessagesMutex s;
                  world := world s |} in
      if negb (s_vnodeListener s)
      then CleanupAndFail ans s
             [C_Mutex_Alloc; C_VirtualizationRoots_Init; C_kauth_listen_scope]
      else (KERN_SUCCESS, s,
            [C_Mutex_Alloc; C_VirtualizationRoots_Init; C_kauth_listen_scope]).

End Lifecycle.

(** ** Further sample inputs *)

(** A call on a vnode whose path cannot be resolved. *)
Definition unresolvableCall : Call :=
  {| call_root := liveRoot;
     call_messageType := MessageType_KtoU_HydrateFile;
     call_vnode := {| vn_allowedFilesystem := true; vn_vtype := VREG;
                      vn_va_flags := placeholderFlags; vn_root := Some liveRoot;
                      vn_path := None |};
     call_pid := 77;
     call_procname := "cat";
     call_sendResult := 0 |}.

Definition atEntryUnresolvable : World :=
  run [Act_call 1%nat unresolvableCall stackGarbage] KauthHandler_Init.


(** Thread 1 was answered Success and is about to read the response. *)
Definition atResponseSuccess : World :=
  run [Act_response 1 MessageType_Response_Success; Act_step 1; Act_step 1; Act_step 1]
    blockedInWait.

(** One call of the listener is classifying; one has its verdict. *)
Definition oneClassifying : Kext :=
  krun [K_invoke 1%nat (process 77 "cat")
          (sampleVnode VREG placeholderFlags (Some offlineRoot))
          KAUTH_VNODE_WRITE_DATA] Kext_boot.

Definition oneLeaving : Kext :=
  krun [K_classify 1%nat 0 stackGarbage] oneClassifying.


Definition goodAnswers : Lifecycle.Answers :=
  {| Lifecycle.Mutex_Alloc_valid := true;
     Lifecycle.VirtualizationRoots_Init_result := 0;
     Lifecycle.kauth_listen_scope_ok := true;
     Lifecycle.VirtualizationRoots_Cleanup_result := 0 |}.

Definition noListener : Lifecycle.Answers :=
  {| Lifecycle.Mutex_Alloc_valid := true;
     Lifecycle.VirtualizationRoots_Init_result := 0;
     Lifecycle.kauth_listen_scope_ok := false;
     Lifecycle.VirtualizationRoots_Cleanup_result := 0 |}.

(** * Part II: Properties *)

(** ** The gate *)

Ltac gate_unfold :=
  unfold HandleVnodeOperation, afterTypeSwitch, HandleOfflineRoot, HandleLiveRoot,
    ShouldIgnoreVnodeType, ReadVNodeFileFlags, proc_name,
    VirtualizationRoots_FindForVnode, KextLog, GetPid, emit, ret,
    mbind, Gate_bind, mret, Gate_ret in *.

Lemma ActionBitIsSet_lor action a b :
  ActionBitIsSet action (Z.lor a b) = ActionBitIsSet action a || ActionBitIsSet action b.
Proof.
  unfold ActionBitIsSet. rewrite Z.land_lor_distr_r.
  destruct (Z.eqb_spec (Z.land action a) 0) as [Ha|Ha];
    destruct (Z.eqb_spec (Z.land action b) 0) as [Hb|Hb]; simpl;
    destruct (Z.eqb_spec (Z.lor (Z.land action a) (Z.land action b)) 0) as [H|H];
    simpl; try reflexivity; exfalso.
  - apply H. rewrite Ha, Hb. reflexivity.
  - apply Z.lor_eq_0_iff in H. tauto.
  - apply Z.lor_eq_0_iff in H. tauto.
  - apply Z.lor_eq_0_iff in H. tauto.
Qed.

Lemma ActionBitsNotSet_negb action mask :
  ActionBitsNotSet action mask = negb (ActionBitIsSet action mask).
Proof. unfold ActionBitsNotSet, ActionBitIsSet. by rewrite negb_involutive. Qed.

Lemma IsFileSystemCrawler_names procname :
  IsFileSystemCrawler procname = true ↔ procname ∈ crawlerNames.
Proof.
  unfold IsFileSystemCrawler, crawlerNames. split.
  - intros H.
    destruct (String.eqb_spec procname "mds"); [subst; set_solver|].
    destruct (String.eqb_spec procname "mdworker"); [subst; set_solver|].
    destruct (String.eqb_spec procname "mds_stores"); [subst; set_solver|].
    destruct (String.eqb_spec procname "fseventsd"); [subst; set_solver|].
    destruct (String.eqb_spec procname "Spotlight"); [subst; set_solver|].
    discriminate.
  - intros H. repeat (apply elem_of_cons in H as [->|H]; [reflexivity|]).
    by apply elem_of_nil in H.
Qed.

Lemma HandleVnodeOperation_unfold context vn action :
  HandleVnodeOperation context vn action =
  if negb (vn_allowedFilesystem vn) then (Verdict KAUTH_RESULT_DEFER, [])
  else
    let '(ignore, t) := ShouldIgnoreVnodeType (vn_vtype vn) vn in
    if ignore then (Verdict KAUTH_RESULT_DEFER, t)
    else (fst (afterTypeSwitch context vn action),
          t ++ snd (afterTypeSwitch context vn action)).
Proof.
  unfold HandleVnodeOperation, afterTypeSwitch.
  destruct (vn_allowedFilesystem vn); simpl; [|reflexivity].
  unfold mbind at 1, Gate_bind at 1.
  destruct (ShouldIgnoreVnodeType (vn_vtype vn) vn) as [[] t]; simpl.
  - unfold ret, mret, Gate_ret. by rewrite app_nil_r.
  - match goal with |- (let '(y, t2) := ?m in _) = _ => destruct m as [y t2] end.
    reflexivity.
Qed.

Lemma afterTypeSwitch_not_dir context vn action t :
  vtype_is_VDIR (vn_vtype vn) = false → vtype_is_VDIR t = false →
  afterTypeSwitch context (with_vtype vn t) action = afterTypeSwitch context vn action.
Proof.
  intros H1 H2. unfold afterTypeSwitch, HandleOfflineRoot, HandleLiveRoot. simpl.
  rewrite H1, H2. reflexivity.
Qed.

(** The verdict of the handler when the crawler check denies. *)
Lemma crawlerDenied_verdict context vn action :
  crawlerDenied context vn = true →
  fst (HandleVnodeOperation context vn action) = Verdict KAUTH_RESULT_DENY
  ∧ Ev_FindForVnode ∉ snd (HandleVnodeOperation context vn action).
Proof.
  unfold crawlerDenied. rewrite !andb_true_iff.
  intros [[[[Hfs Hig] Hroot] Hempty] Hcrawler].
  rewrite HandleVnodeOperation_unfold. rewrite Hfs. simpl.
  destruct (ShouldIgnoreVnodeType (vn_vtype vn) vn) as [ig t] eqn:E.
  simpl in Hig. destruct ig; [discriminate|].
  assert (Ht : Ev_FindForVnode ∉ t).
  { unfold ShouldIgnoreVnodeType in E.
    destruct (vn_vtype vn); apply (f_equal snd) in E; cbv in E; subst t;
      rewrite ?elem_of_cons, elem_of_nil; intuition discriminate. }
  unfold afterTypeSwitch, ReadVNodeFileFlags, proc_name, emit, ret,
    mbind, Gate_bind, mret, Gate_ret. simpl.
  rewrite Hroot. simpl. rewrite Hempty, Hcrawler. simpl. split; [reflexivity|].
  rewrite elem_of_app, !elem_of_cons, elem_of_nil. intuition discriminate.
Qed.

(** The handler from the root lookup on. *)
Lemma reachesRootLookup_verdict context vn action :
  reachesRootLookup context vn = true →
  fst (HandleVnodeOperation context vn action) =
  match vn_root vn with
  | None => Verdict KAUTH_RESULT_DEFER
  | Some root =>
      if negb (providerUserClient root)
      then fst (HandleOfflineRoot root (vn_vtype vn) (vn_va_flags vn) action
                  (ctx_pid context) (ctx_procname context))
      else fst (HandleLiveRoot root (vn_vtype vn) (vn_va_flags vn) action
                  (ctx_pid context))
  end.
Proof.
  unfold reachesRootLookup. rewrite !andb_true_iff.
  intros [[[Hfs Hig] Hroot] Hcrawler].
  rewrite HandleVnodeOperation_unfold. rewrite Hfs. simpl.
  destruct (ShouldIgnoreVnodeType (vn_vtype vn) vn) as [ig t] eqn:E.
  simpl in Hig. destruct ig; [discriminate|]. simpl.
  unfold afterTypeSwitch.
  unfold ReadVNodeFileFlags, proc_name, VirtualizationRoots_FindForVnode,
    KextLog, GetPid, emit, ret, mbind, Gate_bind, mret, Gate_ret. simpl.
  rewrite Hroot. simpl. apply negb_true_iff in Hcrawler. rewrite Hcrawler.
  destruct (vn_root vn) as [root|]; [|reflexivity].
  destruct (negb (providerUserClient root)).
  - by destruct (HandleOfflineRoot _ _ _ _ _ _).
  - by destruct (HandleLiveRoot _ _ _ _ _).
Qed.

Lemma HandleOfflineRoot_policy root t flags action pid procname :
  0 <= index root →
  fst (HandleOfflineRoot root t flags action pid procname) =
  Verdict (offlinePolicy action (vtype_is_VDIR t) (FileFlagsBitIsSet flags FileFlags_IsEmpty)).
Proof.
  intros Hidx. unfold HandleOfflineRoot, offlinePolicy.
  apply Z.leb_le in Hidx. rewrite Hidx.
  unfold offlineWriteMask, offlineEmptyMask, offlineEmptyDirMask.
  rewrite ActionBitsNotSet_negb, !ActionBitIsSet_lor.
  change includes with ActionBitIsSet.
  change KAUTH_VNODE_LIST_DIRECTORY with KAUTH_VNODE_READ_DATA.
  change KAUTH_VNODE_SEARCH with KAUTH_VNODE_EXECUTE.
  gate_unfold.
  destruct (ActionBitIsSet action KAUTH_VNODE_ACCESS),
    (ActionBitIsSet action KAUTH_VNODE_WRITE_ATTRIBUTES),
    (ActionBitIsSet action KAUTH_VNODE_WRITE_EXTATTRIBUTES),
    (ActionBitIsSet action KAUTH_VNODE_WRITE_DATA),
    (ActionBitIsSet action KAUTH_VNODE_APPEND_DATA),
    (ActionBitIsSet action KAUTH_VNODE_WRITE_SECURITY),
    (ActionBitIsSet action KAUTH_VNODE_LINKTARGET); simpl; try reflexivity;
  destruct (FileFlagsBitIsSet flags FileFlags_IsEmpty); simpl; try reflexivity;
  destruct (ActionBitIsSet action KAUTH_VNODE_DELETE_CHILD),
    (ActionBitIsSet action KAUTH_VNODE_DELETE),
    (ActionBitIsSet action KAUTH_VNODE_READ_EXTATTRIBUTES); simpl; try reflexivity;
  destruct (vtype_is_VDIR t); simpl; try reflexivity;
  destruct (ActionBitIsSet action KAUTH_VNODE_READ_ATTRIBUTES),
    (ActionBitIsSet action KAUTH_VNODE_READ_SECURITY),
    (ActionBitIsSet action KAUTH_VNODE_READ_DATA),
    (ActionBitIsSet action KAUTH_VNODE_EXECUTE); simpl; reflexivity.
Qed.

(** ** Claims about the gate *)

(** C1 (as amended). A vnode whose type is not VREG, VDIR or VLNK takes one of
    two ways through the type switch. VNON, VBLK, VCHR, VSOCK, VFIFO and VBAD
    are ignored: the handler returns defer at once, with no further call or
    log entry. VSTR, VCPLX and values outside the enumeration are logged and
    NOT ignored: on an allowed filesystem the handler goes on exactly as it
    does for a regular file (flags are read, the crawler check and the root
    lookup follow, a round trip may be opened), the log entry being the only
    difference. *)
Theorem vnode_type_switch context vn action :
  vn_vtype vn ∉ [VREG; VDIR; VLNK] →
  (vn_vtype vn ∈ [VNON; VBLK; VCHR; VSOCK; VFIFO; VBAD]
   ∧ HandleVnodeOperation context vn action = (Verdict KAUTH_RESULT_DEFER, []))
  ∨ ((vn_vtype vn ∈ [VSTR; VCPLX] ∨ ∃ raw, vn_vtype vn = VOTHER raw)
     ∧ fst (ShouldIgnoreVnodeType (vn_vtype vn) vn) = false
     ∧ (∃ entry, Ev_Log entry ∈ snd (ShouldIgnoreVnodeType (vn_vtype vn) vn))
     ∧ HandleVnodeOperation context vn action =
       if vn_allowedFilesystem vn
       then (fst (HandleVnodeOperation context (with_vtype vn VREG) action),
             snd (ShouldIgnoreVnodeType (vn_vtype vn) vn)
             ++ snd (HandleVnodeOperation context (with_vtype vn VREG) action))
       else (Verdict KAUTH_RESULT_DEFER, [])).
Proof.
  intros Hnot.
  assert (Hreg : vn_allowedFilesystem vn = true →
    HandleVnodeOperation context (with_vtype vn VREG) action
    = afterTypeSwitch context (with_vtype vn VREG) action).
  { intros Hfs. rewrite HandleVnodeOperation_unfold. simpl. rewrite Hfs. simpl.
    by destruct (afterTypeSwitch _ _ _). }
  rewrite (HandleVnodeOperation_unfold context vn).
  destruct (vn_vtype vn) eqn:Et;
    try (exfalso; apply Hnot; rewrite !elem_of_cons; tauto);
    try (left; split; [rewrite !elem_of_cons; tauto|];
         by destruct (vn_allowedFilesystem vn)).
  all: right; split; [rewrite !elem_of_cons; eauto|].
  all: split; [reflexivity|].
  all: split; [eexists; gate_unfold; simpl; rewrite !elem_of_cons; eauto|].
  all: destruct (vn_allowedFilesystem vn) eqn:Hfs; simpl; [|reflexivity].
  all: rewrite Hreg by reflexivity.
  all: rewrite <- (afterTypeSwitch_not_dir context vn action VREG)
         by (by rewrite ?Et).
  all: reflexivity.
Qed.

(** C5 (as amended). When the handler reaches the root lookup (allowed
    filesystem, type not ignored, InVirtualizationRoot set, and not an Empty
    node accessed by a crawler) and the root found is offline, with the
    non-negative index every root of the table has, the verdict is the one of
    the offline policy: deny for a write-class bit without the access bit;
    else on an Empty node defer exactly for access, delete, delete-child, read
    extended attributes and, for a directory, read attributes, read security,
    list directory and search, deny otherwise; else defer. An empty directory
    with list-directory defers, an empty regular file with write-data is
    denied. *)
Theorem offline_root_policy context vn action root :
  reachesRootLookup context vn = true →
  vn_root vn = Some root →
  providerUserClient root = false →
  0 <= index root →
  fst (HandleVnodeOperation context vn action) =
    Verdict (offlinePolicy action (vtype_is_VDIR (vn_vtype vn))
               (FileFlagsBitIsSet (vn_va_flags vn) FileFlags_IsEmpty))
  ∧ offlinePolicy KAUTH_VNODE_LIST_DIRECTORY true true = KAUTH_RESULT_DEFER
  ∧ offlinePolicy KAUTH_VNODE_WRITE_DATA false true = KAUTH_RESULT_DENY.
Proof.
  intros Hreach Hroot Hoff Hidx. split; [|split; reflexivity].
  rewrite reachesRootLookup_verdict by done.
  rewrite Hroot, Hoff. simpl. by apply HandleOfflineRoot_policy.
Qed.

(** C6 (as amended). On an allowed filesystem, for a vnode whose type is not
    ignored and whose flags have both InVirtualizationRoot and Empty set, a
    calling process named mds, mdworker, mds_stores, fseventsd or Spotlight is
    denied, whatever the action bits and whatever the root table would answer:
    the root is not even looked up. *)
Theorem crawler_denied_on_placeholder context vn action :
  vn_allowedFilesystem vn = true →
  fst (ShouldIgnoreVnodeType (vn_vtype vn) vn) = false →
  FileFlagsBitIsSet (vn_va_flags vn) FileFlags_IsInVirtualizationRoot = true →
  FileFlagsBitIsSet (vn_va_flags vn) FileFlags_IsEmpty = true →
  ctx_procname context ∈ crawlerNames →
  fst (HandleVnodeOperation context vn action) = Verdict KAUTH_RESULT_DENY
  ∧ Ev_FindForVnode ∉ snd (HandleVnodeOperation context vn action).
Proof.
  intros Hfs Hig Hin Hempty Hname.
  apply crawlerDenied_verdict. unfold crawlerDenied.
  apply IsFileSystemCrawler_names in Hname.
  by rewrite Hfs, Hig, Hin, Hempty, Hname.
Qed.

(** C9 (as amended). When the root of the vnode has a provider and the calling
    process is that provider, the handler opens no round trip (the world, and
    with it the registry, is left as it was), and its verdict
    is defer whatever the node kind and the action bits, with one exception:
    where the crawler check is reached and applies (Empty placeholder, process
    name matching the crawler heuristic) that earlier check has already
    denied. *)
Theorem provider_never_blocked context vn action root :
  vn_root vn = Some root →
  providerUserClient root = true →
  ctx_pid context = providerPid root →
  fst (HandleVnodeOperation context vn action) =
    Verdict (if crawlerDenied context vn
             then KAUTH_RESULT_DENY else KAUTH_RESULT_DEFER)
  ∧ (∀ r messageType,
       fst (HandleVnodeOperation context vn action) ≠ RoundTrip r messageType)
  ∧ ∀ a sendResult stack w,
      HandleVnodeOperation_enter a context vn action sendResult stack w = w.
Proof.
  intros Hroot Hlive Hpid.
  assert (Hv : fst (HandleVnodeOperation context vn action) =
    Verdict (if crawlerDenied context vn
             then KAUTH_RESULT_DENY else KAUTH_RESULT_DEFER)).
  { destruct (crawlerDenied context vn) eqn:Hc.
    - by apply crawlerDenied_verdict.
    - destruct (reachesRootLookup context vn) eqn:Hr.
      + rewrite reachesRootLookup_verdict by done.
        rewrite Hroot, Hlive. simpl. unfold HandleLiveRoot, GetPid.
        rewrite Hpid, Z.eqb_refl. reflexivity.
      + rewrite HandleVnodeOperation_unfold.
        unfold crawlerDenied in Hc. unfold reachesRootLookup in Hr.
        destruct (vn_allowedFilesystem vn); simpl in *; [|reflexivity].
        destruct (ShouldIgnoreVnodeType (vn_vtype vn) vn) as [[] t];
          simpl in *; [reflexivity|].
        unfold afterTypeSwitch, ReadVNodeFileFlags, proc_name, emit, ret,
          mbind, Gate_bind, mret, Gate_ret. simpl.
        destruct (FileFlagsBitIsSet (vn_va_flags vn) FileFlags_IsInVirtualizationRoot);
          simpl in *; [|reflexivity].
        rewrite Hc in Hr. discriminate. }
  split; [exact Hv|]. split.
  - intros r mt. rewrite Hv. discriminate.
  - intros a sendResult stack w. unfold HandleVnodeOperation_enter.
    by rewrite Hv.
Qed.

(** A vnode of type VSTR is not deferred by the type switch: in an offline
    root a write to it is denied, after the flags were read and the root
    looked up; in a root with a provider a read of the placeholder opens a
    round trip. *)
Lemma exotic_vnode_type_is_classified :
  (vn_vtype (sampleVnode VSTR placeholderFlags (Some offlineRoot)) ∉ [VREG; VDIR; VLNK])
  ∧ HandleVnodeOperation (process 77 "cat")
      (sampleVnode VSTR placeholderFlags (Some offlineRoot)) KAUTH_VNODE_WRITE_DATA
    = (Verdict KAUTH_RESULT_DENY,
       [Ev_vn_getpath; Ev_Log (Log_VnodeTypeNamed true); Ev_ReadVNodeFileFlags;
        Ev_proc_name; Ev_FindForVnode;
        Ev_Log (Log_OfflineWriteDenied KAUTH_VNODE_WRITE_DATA 77 "cat" false)])
  ∧ fst (HandleVnodeOperation (process 77 "cat")
      (sampleVnode VSTR placeholderFlags (Some liveRoot)) KAUTH_VNODE_READ_DATA)
    = RoundTrip liveRoot MessageType_KtoU_HydrateFile.
Proof.
  split; [|split; reflexivity].
  simpl. rewrite !elem_of_cons, elem_of_nil. intuition discriminate.
Qed.

Lemma vnode_type_switch_witness :
  (vn_vtype (sampleVnode (VOTHER 11) placeholderFlags (Some liveRoot)) ∉ [VREG; VDIR; VLNK])
  ∧ fst (HandleVnodeOperation (process 77 "cat")
      (sampleVnode (VOTHER 11) placeholderFlags (Some liveRoot)) KAUTH_VNODE_READ_DATA)
    = RoundTrip liveRoot MessageType_KtoU_HydrateFile.
Proof.
  assert (H : vn_vtype (sampleVnode (VOTHER 11) placeholderFlags (Some liveRoot))
              ∉ [VREG; VDIR; VLNK]).
  { simpl. rewrite !elem_of_cons, elem_of_nil. intuition discriminate. }
  split; [exact H|].
  destruct (vnode_type_switch (process 77 "cat")
              (sampleVnode (VOTHER 11) placeholderFlags (Some liveRoot))
              KAUTH_VNODE_READ_DATA H) as [[Hin _]|(_ & _ & _ & E)].
  - exfalso. revert Hin. simpl. rewrite !elem_of_cons, elem_of_nil.
    intuition discriminate.
  - rewrite E. reflexivity.
Defined.

(** Spotlight's mds listing an empty directory of an offline root: the offline
    policy would defer, the crawler check has already denied. And a root
    record with a negative index, which the root table never hands out, would
    switch the offline policy off: a write is deferred. *)
Lemma offline_policy_preempted_by_crawler_check :
  vn_root (sampleVnode VDIR placeholderFlags (Some offlineRoot)) = Some offlineRoot
  ∧ providerUserClient offlineRoot = false
  ∧ FileFlagsBitIsSet placeholderFlags FileFlags_IsEmpty = true
  ∧ offlinePolicy KAUTH_VNODE_LIST_DIRECTORY true true = KAUTH_RESULT_DEFER
  ∧ fst (HandleVnodeOperation (process 77 "mds")
      (sampleVnode VDIR placeholderFlags (Some offlineRoot)) KAUTH_VNODE_LIST_DIRECTORY)
    = Verdict KAUTH_RESULT_DENY
  ∧ offlinePolicy KAUTH_VNODE_WRITE_DATA false true = KAUTH_RESULT_DENY
  ∧ fst (HandleVnodeOperation (process 77 "cat")
      (sampleVnode VREG placeholderFlags
         (Some {| providerUserClient := false; providerPid := 0;
                  path := "/repo"; index := -1 |}))
      KAUTH_VNODE_WRITE_DATA)
    = Verdict KAUTH_RESULT_DEFER.
Proof. repeat split. Qed.

Lemma offline_root_policy_witness :
  reachesRootLookup (process 77 "ls")
    (sampleVnode VDIR placeholderFlags (Some offlineRoot)) = true
  ∧ fst (HandleVnodeOperation (process 77 "ls")
      (sampleVnode VDIR placeholderFlags (Some offlineRoot)) KAUTH_VNODE_LIST_DIRECTORY)
    = Verdict KAUTH_RESULT_DEFER.
Proof.
  split; [reflexivity|].
  apply (offline_root_policy (process 77 "ls")
           (sampleVnode VDIR placeholderFlags (Some offlineRoot))
           KAUTH_VNODE_LIST_DIRECTORY offlineRoot);
    [reflexivity | reflexivity | reflexivity | simpl; lia].
Defined.

(** A crawler is deferred, not denied, wherever the handler leaves before it
    looks at the process name: on a node that carries the Empty bit but not
    the InVirtualizationRoot bit, on a node of an ignored type, and on a
    filesystem that is not allowed. *)
Lemma crawler_outside_roots_is_deferred :
  FileFlagsBitIsSet FileFlags_IsEmpty FileFlags_IsEmpty = true
  ∧ FileFlagsBitIsSet placeholderFlags FileFlags_IsEmpty = true
  ∧ ctx_procname (process 77 "mds") ∈ crawlerNames
  ∧ HandleVnodeOperation (process 77 "mds")
      (sampleVnode VREG FileFlags_IsEmpty None) KAUTH_VNODE_READ_DATA
    = (Verdict KAUTH_RESULT_DEFER, [Ev_ReadVNodeFileFlags])
  ∧ HandleVnodeOperation (process 77 "mds")
      (sampleVnode VFIFO placeholderFlags (Some liveRoot)) KAUTH_VNODE_READ_DATA
    = (Verdict KAUTH_RESULT_DEFER, [])
  ∧ HandleVnodeOperation (process 77 "mds")
      {| vn_allowedFilesystem := false; vn_vtype := VREG;
         vn_va_flags := placeholderFlags; vn_root := Some liveRoot;
         vn_path := Some "/repo/a"%string |} KAUTH_VNODE_READ_DATA
    = (Verdict KAUTH_RESULT_DEFER, []).
Proof.
  split; [reflexivity|]. split; [reflexivity|]. split; [|repeat split].
  apply IsFileSystemCrawler_names. reflexivity.
Qed.

Lemma crawler_denied_on_placeholder_witness :
  ctx_procname (process 77 "mdworker") ∈ crawlerNames
  ∧ fst (HandleVnodeOperation (process 77 "mdworker")
      (sampleVnode VREG placeholderFlags (Some liveRoot)) KAUTH_VNODE_READ_DATA)
    = Verdict KAUTH_RESULT_DENY.
Proof.
  assert (H : ctx_procname (process 77 "mdworker") ∈ crawlerNames).
  { apply IsFileSystemCrawler_names. reflexivity. }
  split; [exact H|].
  apply (crawler_denied_on_placeholder (process 77 "mdworker")
           (sampleVnode VREG placeholderFlags (Some liveRoot))
           KAUTH_VNODE_READ_DATA); [reflexivity | reflexivity | reflexivity | reflexivity | exact H].
Defined.

(** A provider process that carries a crawler's name is denied on an Empty
    placeholder of its own root. *)
Lemma provider_named_like_crawler_is_denied :
  vn_root (sampleVnode VREG placeholderFlags (Some liveRoot)) = Some liveRoot
  ∧ providerUserClient liveRoot = true
  ∧ ctx_pid (process 42 "mds") = providerPid liveRoot
  ∧ fst (HandleVnodeOperation (process 42 "mds")
      (sampleVnode VREG placeholderFlags (Some liveRoot)) KAUTH_VNODE_READ_DATA)
    = Verdict KAUTH_RESULT_DENY.
Proof. repeat split. Qed.

Lemma provider_never_blocked_witness :
  ctx_pid (process 42 "gvfs") = providerPid liveRoot
  ∧ fst (HandleVnodeOperation (process 42 "gvfs")
      (sampleVnode VREG placeholderFlags (Some liveRoot)) KAUTH_VNODE_READ_DATA)
    = Verdict KAUTH_RESULT_DEFER.
Proof.
  split; [reflexivity|].
  apply (proj1 (provider_never_blocked (process 42 "gvfs")
           (sampleVnode VREG placeholderFlags (Some liveRoot))
           KAUTH_VNODE_READ_DATA liveRoot eq_refl eq_refl eq_refl)).
Defined.

(** ** The registry and the round trip *)

Ltac step_cases b w :=
  unfold TrySendRequestAndWaitForResponse_step;
  let fb := fresh "fb" in
  let Hfb := fresh "Hfb" in
  let Hpc := fresh "Hpc" in
  destruct (frames w !! b) as [fb|] eqn:Hfb;
  [destruct (pc fb) eqn:Hpc|]; simpl;
  repeat match goal with
         | |- context [match vn_path ?v with _ => _ end] => destruct (vn_path v)
         | |- context [if ?c then _ else _] => destruct c eqn:?
         end; simpl.

Lemma step_frames_other a b w :
  a ≠ b → frames (step b w) !! a = frames w !! a.
Proof.
  intros Hne. step_cases b w; try reflexivity; by rewrite lookup_insert_ne.
Qed.

Lemma step_flag b w : s_isShuttingDown (step b w) = s_isShuttingDown w.
Proof. step_cases b w; congruence. Qed.

Lemma elem_of_LIST_REMOVE a b l : a ∈ LIST_REMOVE b l ↔ a ≠ b ∧ a ∈ l.
Proof. unfold LIST_REMOVE. by rewrite list_elem_of_filter. Qed.


Lemma enter_frames_other a b c stack w :
  a ≠ b →
  frames (TrySendRequestAndWaitForResponse_enter b c stack w) !! a = frames w !! a.
Proof.
  intros Hne. unfold TrySendRequestAndWaitForResponse_enter.
  destruct (frames w !! b) as [old|]; [destruct (pc old)|]; simpl;
    try reflexivity; by rewrite lookup_insert_ne.
Qed.

Lemma enter_static b c stack w :
  s_outstandingMessages (TrySendRequestAndWaitForResponse_enter b c stack w)
  = s_outstandingMessages w
  ∧ s_isShuttingDown (TrySendRequestAndWaitForResponse_enter b c stack w)
    = s_isShuttingDown w.
Proof.
  unfold TrySendRequestAndWaitForResponse_enter.
  destruct (frames w !! b) as [old|]; [destruct (pc old)|]; done.
Qed.

(** The scan changes at most the message of one frame. *)
Lemma deliverResponse_frames messageId responseType l fs a :
  fst (deliverResponse messageId responseType l fs) !! a = fs !! a
  ∨ ∃ f, fs !! a = Some f
         ∧ fst (deliverResponse messageId responseType l fs) !! a
           = Some (set_message
                     (set_receivedResponse true (set_response responseType (message f))) f).
Proof.
  induction l as [|b l IH]; simpl; [by left|].
  destruct (fs !! b) as [f|] eqn:Hb; [|exact IH].
  destruct (request_messageId (message f) =? messageId); [|exact IH]. simpl.
  destruct (decide (b = a)) as [->|Hne].
  - right. exists f. by rewrite lookup_insert_eq.
  - left. by rewrite lookup_insert_ne.
Qed.

Lemma response_static messageId responseType w :
  s_outstandingMessages (fst (KauthHandler_HandleKernelMessageResponse messageId responseType w))
  = s_outstandingMessages w
  ∧ s_isShuttingDown (fst (KauthHandler_HandleKernelMessageResponse messageId responseType w))
    = s_isShuttingDown w.
Proof.
  unfold KauthHandler_HandleKernelMessageResponse.
  destruct responseType; try done; by destruct (deliverResponse _ _ _ _).
Qed.

Lemma response_frames messageId responseType w a :
  frames (fst (KauthHandler_HandleKernelMessageResponse messageId responseType w)) !! a
  = frames w !! a
  ∨ ∃ f, frames w !! a = Some f
         ∧ frames (fst (KauthHandler_HandleKernelMessageResponse messageId responseType w)) !! a
           = Some (set_message
                     (set_receivedResponse true (set_response responseType (message f))) f).
Proof.
  unfold KauthHandler_HandleKernelMessageResponse.
  destruct responseType; try (by left).
  - pose proof (deliverResponse_frames messageId MessageType_Response_Success
                  (s_outstandingMessages w) (frames w) a) as H.
    by destruct (deliverResponse _ _ _ _).
  - pose proof (deliverResponse_frames messageId MessageType_Response_Fail
                  (s_outstandingMessages w) (frames w) a) as H.
    by destruct (deliverResponse _ _ _ _).
Qed.

Lemma set_message_id f : set_message (message f) f = f.
Proof. by destruct f. Qed.

(** What the rest of the system can do to the frame of a thread: nothing but
    write to its message. *)
Lemma env_frame a act w f :
  is_step_of a act = false → is_call_of a act = false →
  frames w !! a = Some f →
  ∃ m, frames (exec act w) !! a = Some (set_message m f).
Proof.
  intros Hstep Hcall Hf. destruct act as [b c stack|b|messageId responseType|]; simpl in *.
  - apply bool_decide_eq_false in Hcall.
    exists (message f). rewrite enter_frames_other by done.
    by rewrite set_message_id.
  - apply bool_decide_eq_false in Hstep.
    exists (message f). rewrite step_frames_other by done.
    by rewrite set_message_id.
  - destruct (response_frames messageId responseType w a) as [E|(g & Hg & E)].
    + exists (message f). by rewrite E, set_message_id.
    + rewrite Hf in Hg. injection Hg as <-. eauto.
  - exists (message f). by rewrite set_message_id.
Qed.

(** No action resets the shutdown flag, and under it the registry only
    shrinks. *)
Lemma exec_shutdown act w :
  s_isShuttingDown w = true →
  s_isShuttingDown (exec act w) = true
  ∧ s_outstandingMessages (exec act w) ⊆ s_outstandingMessages w.
Proof.
  intros Hflag. destruct act as [b c stack|b|messageId responseType|]; simpl.
  - destruct (enter_static b c stack w) as [-> ->]. done.
  - split; [by rewrite step_flag|].
    step_cases b w; try done.
    + rewrite Hflag in *. discriminate.
    + intros x. rewrite elem_of_LIST_REMOVE. tauto.
  - destruct (response_static messageId responseType w) as [-> ->]. done.
  - done.
Qed.

Lemma run_cons act acts w : run (act :: acts) w = run acts (exec act w).
Proof. reflexivity. Qed.

Lemma run_app acts1 acts2 w : run (acts1 ++ acts2) w = run acts2 (run acts1 w).
Proof. unfold run. by rewrite foldl_app. Qed.


(** *** The invariant of reachable worlds *)

Lemma frame_wf_ext w w' a f :
  (a ∈ s_outstandingMessages w' ↔ a ∈ s_outstandingMessages w) →
  (s_isShuttingDown w = true → s_isShuttingDown w' = true) →
  frame_wf w a f → frame_wf w' a f.
Proof.
  unfold frame_wf. intros Hreg Hflag. destruct (pc f); rewrite Hreg; intuition.
Qed.

Lemma frame_wf_set_message w a f m :
  frame_wf w a (set_message m f) ↔ frame_wf w a f.
Proof. reflexivity. Qed.

Lemma wf_update w w' b fb' :
  wf w →
  frames w' = <[b := fb']> (frames w) →
  (s_isShuttingDown w = true → s_isShuttingDown w' = true) →
  (∀ a, a ≠ b → a ∈ s_outstandingMessages w' ↔ a ∈ s_outstandingMessages w) →
  NoDup (s_outstandingMessages w') →
  frame_wf w' b fb' →
  wf w'.
Proof.
  intros (Hframes & Hreg & _) Hfs Hflag Hmem Hnd Hb. split; [|split; [|done]].
  - intros a f. rewrite Hfs. destruct (decide (a = b)) as [->|Hne].
    + rewrite lookup_insert_eq. by intros [= <-].
    + rewrite lookup_insert_ne by done. intros Ha.
      eapply frame_wf_ext; [by apply Hmem | done | by apply Hframes].
  - intros a Ha. rewrite Hfs. destruct (decide (a = b)) as [->|Hne].
    + rewrite lookup_insert_eq. eauto.
    + rewrite lookup_insert_ne by done. apply Hreg. by apply Hmem.
Qed.

Lemma NoDup_LIST_REMOVE a l : NoDup l → NoDup (LIST_REMOVE a l).
Proof. apply NoDup_filter. Qed.

Lemma wf_step b w : wf w → wf (step b w).
Proof.
  intros Hwf. pose proof Hwf as (Hframes & Hreg & Hnd).
  unfold TrySendRequestAndWaitForResponse_step.
  destruct (frames w !! b) as [fb|] eqn:Hfb; [|done].
  pose proof (Hframes b fb Hfb) as Hb. unfold frame_wf in Hb.
  destruct (pc fb) eqn:Hpc; simpl;
    repeat match goal with
           | |- context [match vn_path ?v with _ => _ end] => destruct (vn_path v)
           | |- context [if ?c then _ else _] => destruct c eqn:?
           end;
    try done;
    (eapply (wf_update w _ b); [exact Hwf | reflexivity | simpl; try done | simpl | simpl | ]);
    try done;
    unfold frame_wf; simpl; unfold LIST_INSERT_HEAD;
    rewrite ?elem_of_cons, ?elem_of_LIST_REMOVE;
    try (apply NoDup_LIST_REMOVE; done);
    try (intros; rewrite ?elem_of_cons, ?elem_of_LIST_REMOVE; tauto);
    try tauto.
  all: repeat match goal with
              | H : negb _ = true |- _ => apply negb_true_iff in H
              | H : negb _ = false |- _ => apply negb_false_iff in H
              | H : _ && _ = true |- _ => apply andb_true_iff in H as [? ?]
              end.
  all: try (apply NoDup_cons; tauto).
  all: try (intuition congruence).
Qed.

Lemma wf_enter b c stack w :
  wf w → wf (TrySendRequestAndWaitForResponse_enter b c stack w).
Proof.
  intros Hwf. pose proof Hwf as (Hframes & Hreg & Hnd).
  unfold TrySendRequestAndWaitForResponse_enter.
  destruct (frames w !! b) as [old|] eqn:Hold.
  - pose proof (Hframes b old Hold) as Hb. unfold frame_wf in Hb.
    destruct (pc old); try done.
    by eapply (wf_update w _ b); [exact Hwf | reflexivity | | | | ].
  - eapply (wf_update w _ b); [exact Hwf | reflexivity | done | done | done | ].
    split; [|done]. simpl. intros Hin. apply Hreg in Hin as [? Hin].
    congruence.
Qed.

Lemma wf_response messageId responseType w :
  wf w → wf (fst (KauthHandler_HandleKernelMessageResponse messageId responseType w)).
Proof.
  intros (Hframes & Hreg & Hnd).
  destruct (response_static messageId responseType w) as [Hl Hflag].
  split; [|split].
  - intros a f Ha.
    destruct (response_frames messageId responseType w a) as [E|(g & Hg & E)].
    + rewrite E in Ha. eapply frame_wf_ext; [by rewrite Hl | by rewrite Hflag | eauto].
    + rewrite E in Ha. injection Ha as <-. apply frame_wf_set_message.
      eapply frame_wf_ext; [by rewrite Hl | by rewrite Hflag | eauto].
  - intros a. rewrite Hl. intros Ha. apply Hreg in Ha.
    destruct (response_frames messageId responseType w a) as [E|(g & Hg & E)];
      rewrite E; eauto.
  - by rewrite Hl.
Qed.

Lemma wf_abort w : wf w → wf (fst (AbortAllOutstandingEvents w)).
Proof.
  intros (Hframes & Hreg & Hnd). split; [|split; done].
  intros a f Ha. eapply frame_wf_ext; [| |by apply Hframes]; done.
Qed.

Lemma wf_exec act w : wf w → wf (exec act w).
Proof.
  intros Hwf. destruct act; simpl;
    [by apply wf_enter | by apply wf_step | by apply wf_response | by apply wf_abort].
Qed.

Lemma wf_run acts w : wf w → wf (run acts w).
Proof.
  revert w. induction acts as [|act acts IH]; intros w Hwf; [done|].
  rewrite run_cons. by apply IH, wf_exec.
Qed.

Lemma wf_init : wf KauthHandler_Init.
Proof.
  split; [|split].
  - intros a f. unfold KauthHandler_Init. simpl. by rewrite lookup_empty.
  - intros a. simpl. by rewrite elem_of_nil.
  - apply NoDup_nil_2.
Qed.

Lemma reachable_wf w : reachable w → wf w.
Proof. intros [acts ->]. apply wf_run, wf_init. Qed.

Lemma reachable_run acts w : reachable w → reachable (run acts w).
Proof. intros [acts0 ->]. exists (acts0 ++ acts). by rewrite run_app. Qed.

(** *** Counting the steps of one thread in a schedule *)

Section OwnSteps.
Variable a : addr.
Variable Inv : nat → World → Prop.

Hypothesis Inv_env : ∀ k act w,
  is_step_of a act = false → is_call_of a act = false →
  Inv k w → Inv k (exec act w).
Hypothesis Inv_step : ∀ k w, Inv k w → Inv (pred k) (step a w).

Lemma run_own_steps acts : ∀ k w,
  same_call a acts → Inv k w → Inv (k - own_steps a acts) (run acts w).
Proof using Inv_env Inv_step.
  induction acts as [|act acts IH]; intros k w Hcalls HI.
  - simpl. by replace (k - own_steps a [])%nat with k by (cbn; lia).
  - apply Forall_cons in Hcalls as [Hcall Hcalls]. rewrite run_cons.
    unfold own_steps. rewrite filter_cons.
    destruct (is_step_of a act) eqn:Hstep.
    + rewrite decide_True by done. simpl.
      assert (act = Act_step a) as ->.
      { destruct act; try discriminate. simpl in Hstep.
        by apply bool_decide_eq_true in Hstep as ->. }
      simpl. replace (k - S (length (filter (λ act, is_step_of a act = true) acts)))%nat
        with (pred k - own_steps a acts)%nat by (unfold own_steps; lia).
      by apply IH, Inv_step.
    + rewrite decide_False by (by intros ?).
      by apply IH, Inv_env.
Qed.
End OwnSteps.

(** *** The ways out of a round trip *)

Lemma shutdown_path_env a e0 k act w :
  is_step_of a act = false → is_call_of a act = false →
  shutdown_path a e0 k w → shutdown_path a e0 k (exec act w).
Proof.
  intros Hstep Hcall (Hflag & f & Hf & He & Hpc).
  split; [by apply exec_shutdown|].
  destruct (env_frame a act w f Hstep Hcall Hf) as [m Hm].
  exists (set_message m f). done.
Qed.

Lemma shutdown_path_step a e0 k w :
  shutdown_path a e0 k w → shutdown_path a e0 (pred k) (step a w).
Proof.
  intros (Hflag & f & Hf & He & Hpc).
  split; [by rewrite step_flag|].
  unfold TrySendRequestAndWaitForResponse_step. rewrite Hf.
  destruct (pc f) eqn:Hl; try done; simpl; rewrite ?Hflag; simpl.
  - (* L_checkAndInsert *)
    eexists. rewrite lookup_insert_eq. split; [done|]. simpl.
    repeat split; try tauto; lia.
  - (* L_send *)
    destruct Hpc as (? & -> & ?). simpl.
    eexists. rewrite lookup_insert_eq. split; [done|]. simpl.
    repeat split; try tauto; lia.
  - (* L_wait_received *)
    destruct (receivedResponse (message f)); simpl;
      (eexists; rewrite lookup_insert_eq; split; [done|]; simpl;
       repeat split; try tauto; lia).
  - (* L_wait_shutdown *)
    eexists. rewrite lookup_insert_eq. split; [done|]. simpl.
    repeat split; try tauto; lia.
  - (* L_after_wait *)
    eexists. rewrite lookup_insert_eq. split; [done|]. simpl.
    repeat split; try tauto; lia.
  - (* L_cleanup *)
    eexists. rewrite lookup_insert_eq. split; [done|]. simpl.
    repeat split; tauto.
  - (* L_returned *)
    exists f. by rewrite Hf, Hl.
Qed.

Lemma send_failure_path_env a k act w :
  is_step_of a act = false → is_call_of a act = false →
  send_failure_path a k w → send_failure_path a k (exec act w).
Proof.
  intros Hstep Hcall (Hwf & f & Hf & Hpc).
  split; [by apply wf_exec|].
  destruct (env_frame a act w f Hstep Hcall Hf) as [m Hm].
  exists (set_message m f). done.
Qed.

Lemma send_failure_path_step a k w :
  send_failure_path a k w → send_failure_path a (pred k) (step a w).
Proof.
  intros (Hwf & f & Hf & Hpc).
  split; [by apply wf_step|].
  pose proof Hwf as (Hframes & _). apply Hframes in Hf as Hfwf.
  unfold frame_wf in Hfwf.
  unfold TrySendRequestAndWaitForResponse_step. rewrite Hf.
  destruct (pc f) eqn:Hl; try done; simpl.
  - (* L_send *)
    destruct Hpc as (? & Hloc & Hsend). rewrite Hloc.
    apply Z.eqb_neq in Hsend. rewrite Hsend. simpl.
    eexists. rewrite lookup_insert_eq. split; [done|]. simpl.
    repeat split; try tauto; lia.
  - (* L_cleanup *)
    destruct Hpc as (? & Hloc & ? & ?).
    eexists. rewrite lookup_insert_eq. split; [done|]. simpl.
    repeat split; try done.
    apply bool_decide_eq_false. intros Hnot. apply Hnot. by apply Hfwf.
  - (* L_returned *)
    exists f. by rewrite Hf, Hl.
Qed.

Lemma fail_path_env a k act w :
  is_step_of a act = false → is_call_of a act = false →
  fail_path a k w → fail_path a k (exec act w).
Proof.
  intros Hstep Hcall (f & Hf & Hpc).
  destruct (env_frame a act w f Hstep Hcall Hf) as [m Hm].
  exists (set_message m f). done.
Qed.

Lemma fail_path_step a k w :
  fail_path a k w → fail_path a (pred k) (step a w).
Proof.
  intros (f & Hf & Hpc). unfold fail_path.
  unfold TrySendRequestAndWaitForResponse_step. rewrite Hf.
  destruct (pc f) eqn:Hl; try done; simpl.
  - eexists. rewrite lookup_insert_eq. split; [done|]. simpl. tauto.
  - exists f. by rewrite Hf, Hl.
Qed.


(** At the cleanup the record is linked exactly when the check saw no
    shutdown. *)
Lemma cleanup_membership a w f :
  reachable w → frames w !! a = Some f → pc f = L_cleanup →
  a ∈ s_outstandingMessages w ↔ isShuttingDown f = false.
Proof.
  intros Hr Hf Hl. apply reachable_wf in Hr as (Hframes & _).
  apply Hframes in Hf. unfold frame_wf in Hf. rewrite Hl in Hf. tauto.
Qed.

(** *** Response delivery *)

Lemma deliverResponse_unique messageId responseType l fs a f :
  a ∈ l → fs !! a = Some f → request_messageId (message f) = messageId →
  (∀ b g, b ∈ l → fs !! b = Some g → request_messageId (message g) = messageId → b = a) →
  deliverResponse messageId responseType l fs
  = (<[a := set_message
             (set_receivedResponse true (set_response responseType (message f))) f]> fs,
     [Eff_wakeup a]).
Proof.
  intros Hin Hf Hid. induction l as [|b l IH]; intros Huniq.
  - by apply elem_of_nil in Hin.
  - simpl. destruct (fs !! b) as [g|] eqn:Hg.
    + destruct (Z.eqb_spec (request_messageId (message g)) messageId) as [Hm|Hm].
      * assert (b = a) as -> by (eapply Huniq; [left| |]; done).
        rewrite Hf in Hg. by injection Hg as <-.
      * apply elem_of_cons in Hin as [->|Hin]; [congruence|].
        apply IH; [done|]. intros c h Hc. apply Huniq. by right.
    + apply elem_of_cons in Hin as [->|Hin]; [congruence|].
      apply IH; [done|]. intros c h Hc. apply Huniq. by right.
Qed.




(** *** Unhandled response types *)

Lemma unhandled_response messageId responseType w :
  is_Success_or_Fail responseType = false →
  KauthHandler_HandleKernelMessageResponse messageId responseType w = (w, []).
Proof. by destruct responseType. Qed.

Lemma keeps_waiting_exec a act w :
  keeps_waiting a act = true →
  waiting a w ∧ s_isShuttingDown w = false →
  waiting a (exec act w) ∧ s_isShuttingDown (exec act w) = false.
Proof.
  intros Hact [(f & Hf & Hpc & Hrecv) Hflag].
  destruct act as [b c stack|b|messageId responseType|]; simpl in *.
  - apply negb_true_iff, bool_decide_eq_false in Hact.
    destruct (enter_static b c stack w) as [_ ->]. split; [|done].
    exists f. by rewrite enter_frames_other.
  - rewrite step_flag. split; [|done].
    destruct (decide (b = a)) as [->|Hne].
    + unfold waiting, TrySendRequestAndWaitForResponse_step. rewrite Hf.
      apply elem_of_cons in Hpc as [Hl|Hpc];
        [|apply elem_of_cons in Hpc as [Hl|Hpc]; [|by apply elem_of_nil in Hpc]];
        rewrite Hl; simpl; rewrite ?Hrecv, ?Hflag; simpl;
        (eexists; rewrite lookup_insert_eq; split; [reflexivity|]; simpl;
         split; [|done]; rewrite !elem_of_cons; tauto).
    + exists f. by rewrite step_frames_other.
  - apply negb_true_iff in Hact. rewrite unhandled_response by done.
    split; [|done]. by exists f.
  - discriminate.
Qed.

(** C10. A response whose type is neither Success nor Fail does nothing: the
    world is unchanged and no effect is issued, not even the acquisition of
    the mutex under which the registry is scanned, whatever its id. A thread
    in its wait loop with no response yet stays there through any schedule
    that holds no Success or Fail response, no shutdown and no new call on
    its frame. *)
Theorem unhandled_response_is_ignored messageId responseType w :
  is_Success_or_Fail responseType = false →
  KauthHandler_HandleKernelMessageResponse messageId responseType w = (w, [])
  ∧ ∀ a acts,
      waiting a w → s_isShuttingDown w = false →
      Forall (λ act, keeps_waiting a act = true) acts →
      waiting a (run (Act_response messageId responseType :: acts) w).
Proof.
  intros Hty. split; [by apply unhandled_response|].
  intros a acts Hwait Hflag Hacts. rewrite run_cons. simpl.
  rewrite unhandled_response by done.
  assert (H : waiting a (run acts w) ∧ s_isShuttingDown (run acts w) = false);
    [|by destruct H].
  revert w Hwait Hflag. induction Hacts as [|act acts Hact _ IH]; intros w Hwait Hflag.
  - done.
  - rewrite run_cons.
    destruct (keeps_waiting_exec a act w Hact (conj Hwait Hflag)) as [? ?].
    by apply IH.
Qed.

(** *** The ways out of the round trip *)

(** C2 (as amended). A round trip that reads a response other than Success
    returns false with the verdict deny and the error code EAGAIN. A round
    trip that sees the shutdown flag in or after its wait returns false with
    the verdict deny as well, but writes no error code: [*kauthError] is what
    it was when the call began. *)
Theorem round_trip_denials a w f acts :
  reachable w → frames w !! a = Some f → same_call a acts →
  (pc f = L_response →
   is_Response_Success (response (message f)) = false →
   (1 ≤ own_steps a acts)%nat →
   ∃ f', frames (run acts (step a w)) !! a = Some f'
         ∧ pc f' = L_returned ∧ result f' = false
         ∧ kauthResult f' = KAUTH_RESULT_DENY
         ∧ kauthError f' = Some EAGAIN
         ∧ EAGAIN ≠ EACCES)
  ∧ (pc f ∈ [L_wait_received; L_wait_shutdown; L_after_wait] →
     s_isShuttingDown w = true →
     (4 ≤ own_steps a acts)%nat →
     ∃ f', frames (run acts w) !! a = Some f'
           ∧ pc f' = L_returned ∧ result f' = false
           ∧ kauthResult f' = KAUTH_RESULT_DENY
           ∧ kauthError f' = kauthError f).
Proof.
  intros Hr Hf Hcalls.
  apply reachable_wf in Hr as (Hframes & _). apply Hframes in Hf as Hfwf.
  unfold frame_wf in Hfwf. split.
  - intros Hl Hresp Hn. rewrite Hl in Hfwf.
    assert (H1 : fail_path a 1 (step a w)).
    { unfold fail_path, TrySendRequestAndWaitForResponse_step.
      rewrite Hf, Hl, Hresp. simpl. eexists. rewrite lookup_insert_eq.
      split; [reflexivity|]. simpl. repeat split; [lia | tauto]. }
    pose proof (run_own_steps a (fail_path a) (fail_path_env a) (fail_path_step a)
                  acts 1%nat _ Hcalls H1) as (f' & Hf' & Hpc).
    replace (1 - own_steps a acts)%nat with 0%nat in Hpc by lia.
    exists f'. destruct (pc f'); try done; [lia |].
    repeat split; try tauto. discriminate.
  - intros Hl Hflag Hn.
    assert (H4 : shutdown_path a (kauthError f) 4 w).
    { split; [done|]. exists f. split; [done|]. split; [done|].
      repeat (apply elem_of_cons in Hl as [Hl|Hl]; [rewrite Hl in *; split; [lia|tauto]|]).
      by apply elem_of_nil in Hl. }
    pose proof (run_own_steps a (shutdown_path a (kauthError f))
                  (shutdown_path_env a _) (shutdown_path_step a _)
                  acts 4%nat _ Hcalls H4) as (_ & f' & Hf' & He & Hpc).
    replace (4 - own_steps a acts)%nat with 0%nat in Hpc by lia.
    exists f'. destruct (pc f'); try done; try lia. tauto.
Qed.


(** C8. A round trip whose record was inserted and whose message the
    transport refuses sets the verdict to defer and goes straight to the
    cleanup: it is never at a point of the wait loop. Its second step from the
    send removes the record, which was linked, and it returns false with the
    verdict defer. *)
Theorem send_failure_defers a w f acts :
  reachable w → frames w !! a = Some f →
  pc f = L_send → isShuttingDown f = false → call_sendResult (call f) ≠ 0 →
  same_call a acts →
  a ∈ s_outstandingMessages w
  ∧ (∃ f', frames (step a w) !! a = Some f'
           ∧ pc f' = L_cleanup ∧ kauthResult f' = KAUTH_RESULT_DEFER)
  ∧ (∃ f', frames (run acts w) !! a = Some f'
           ∧ pc f' ∈ [L_send; L_cleanup; L_returned])
  ∧ ((2 ≤ own_steps a acts)%nat →
     (a ∉ s_outstandingMessages (run acts w))
     ∧ ∃ f', frames (run acts w) !! a = Some f'
             ∧ pc f' = L_returned ∧ result f' = false
             ∧ kauthResult f' = KAUTH_RESULT_DEFER
             ∧ unlinkedRemove f' = false).
Proof.
  intros Hr Hf Hl Hloc Hsend Hcalls.
  apply reachable_wf in Hr as Hwf. pose proof Hwf as (Hframes & _).
  apply Hframes in Hf as Hfwf. unfold frame_wf in Hfwf. rewrite Hl in Hfwf.
  assert (H2 : send_failure_path a 2 w).
  { split; [done|]. exists f. rewrite Hl. by repeat split. }
  split; [by apply Hfwf|]. split; [|split].
  - destruct (send_failure_path_step a 2 w H2) as (_ & f' & Hf' & Hpc).
    exists f'. split; [done|].
    unfold TrySendRequestAndWaitForResponse_step in Hf'.
    rewrite Hf, Hl, Hloc in Hf'. apply Z.eqb_neq in Hsend. rewrite Hsend in Hf'.
    simpl in Hf'. rewrite lookup_insert_eq in Hf'. by injection Hf' as <-.
  - pose proof (run_own_steps a (send_failure_path a)
                  (send_failure_path_env a) (send_failure_path_step a)
                  acts 2%nat _ Hcalls H2) as (_ & f' & Hf' & Hpc).
    exists f'. split; [done|].
    destruct (pc f'); try done; rewrite !elem_of_cons; tauto.
  - intros Hn.
    pose proof (run_own_steps a (send_failure_path a)
                  (send_failure_path_env a) (send_failure_path_step a)
                  acts 2%nat _ Hcalls H2) as (Hwf' & f' & Hf' & Hpc).
    replace (2 - own_steps a acts)%nat with 0%nat in Hpc by lia.
    destruct Hwf' as (Hframes' & _). apply Hframes' in Hf' as Hfwf'.
    unfold frame_wf in Hfwf'.
    destruct (pc f') eqn:Hl'; try done; try lia.
    split; [done|]. exists f'. tauto.
Qed.

(** *** The claims at sample worlds *)

(** C4, the code at the failing schedule. A thread that finds the shutdown
    flag set at its check inserts nothing, sets the verdict to deny and
    arrives at the cleanup, where [LIST_REMOVE] is applied to its record: the
    record is not in the registry then, and never was. *)
Theorem cleanup_of_a_record_never_inserted :
  (∃ f, frames (run [Act_step 1; Act_step 1; Act_step 1; Act_step 1; Act_step 1]
                  atCheckUnderShutdown) !! 1%nat = Some f
        ∧ pc f = L_cleanup ∧ isShuttingDown f = true
        ∧ kauthResult f = KAUTH_RESULT_DENY)
  ∧ (1%nat ∉ s_outstandingMessages
               (run [Act_step 1; Act_step 1; Act_step 1; Act_step 1; Act_step 1]
                  atCheckUnderShutdown))
  ∧ ∃ f', frames (run [Act_step 1; Act_step 1; Act_step 1; Act_step 1; Act_step 1;
                       Act_step 1] atCheckUnderShutdown) !! 1%nat = Some f'
          ∧ pc f' = L_returned ∧ unlinkedRemove f' = true.
Proof.
  split; [|split].
  - eexists. split; [vm_compute; reflexivity|]. repeat split.
  - change (s_outstandingMessages _) with (@nil nat). apply not_elem_of_nil.
  - eexists. split; [vm_compute; reflexivity|]. repeat split.
Qed.

(** A thread blocked in its wait is woken by the shutdown: it returns with
    the verdict deny and no error code written. *)
Lemma shutdown_denial_writes_no_error_code :
  waiting 1%nat blockedInWait
  ∧ ∃ f, frames (run [Act_abort; Act_step 1; Act_step 1; Act_step 1] blockedInWait)
           !! 1%nat = Some f
         ∧ pc f = L_returned
         ∧ kauthResult f = KAUTH_RESULT_DENY
         ∧ kauthError f = None
         ∧ kauthError f ≠ Some EAGAIN.
Proof.
  split.
  - eexists. split; [vm_compute; reflexivity|]. simpl. split; [|done].
    rewrite !elem_of_cons. tauto.
  - eexists. split; [vm_compute; reflexivity|]. by repeat split.
Qed.

Lemma round_trip_denials_witness :
  reachable atResponseFail
  ∧ (∃ f', frames (run [Act_step 1] (step 1%nat atResponseFail)) !! 1%nat = Some f'
           ∧ pc f' = L_returned ∧ result f' = false
           ∧ kauthResult f' = KAUTH_RESULT_DENY
           ∧ kauthError f' = Some EAGAIN
           ∧ EAGAIN ≠ EACCES)
  ∧ ∃ f', frames (run [Act_step 1; Act_step 1; Act_step 1; Act_step 1]
                    (run [Act_abort] blockedInWait)) !! 1%nat = Some f'
          ∧ pc f' = L_returned ∧ result f' = false
          ∧ kauthResult f' = KAUTH_RESULT_DENY
          ∧ kauthError f' = None.
Proof.
  assert (Hr : reachable atResponseFail).
  { eexists. unfold atResponseFail, blockedInWait. rewrite <- run_app. reflexivity. }
  split; [exact Hr|]. split.
  - assert (Hf : ∃ f, frames atResponseFail !! 1%nat = Some f
                      ∧ pc f = L_response
                      ∧ is_Response_Success (response (message f)) = false).
    { eexists. split; [vm_compute; reflexivity|]. split; reflexivity. }
    destruct Hf as (f & Hf & Hl & Hresp).
    assert (Hcalls : same_call 1%nat [Act_step 1%nat]) by (repeat constructor).
    assert (Hn : (1 ≤ own_steps 1%nat [Act_step 1%nat])%nat) by (vm_compute; lia).
    exact (proj1 (round_trip_denials 1%nat atResponseFail f [Act_step 1%nat]
                    Hr Hf Hcalls) Hl Hresp Hn).
  - assert (Hr' : reachable (run [Act_abort] blockedInWait)).
    { eexists. unfold blockedInWait. rewrite <- run_app. reflexivity. }
    assert (Hf : ∃ f, frames (run [Act_abort] blockedInWait) !! 1%nat = Some f
                      ∧ pc f = L_wait_shutdown ∧ kauthError f = None).
    { eexists. split; [vm_compute; reflexivity|]. split; reflexivity. }
    destruct Hf as (f & Hf & Hl & He).
    assert (Hcalls : same_call 1%nat
              [Act_step 1%nat; Act_step 1%nat; Act_step 1%nat; Act_step 1%nat])
      by (repeat constructor).
    assert (Hn : (4 ≤ own_steps 1%nat
              [Act_step 1%nat; Act_step 1%nat; Act_step 1%nat; Act_step 1%nat])%nat)
      by (vm_compute; lia).
    assert (Hpc : pc f ∈ [L_wait_received; L_wait_shutdown; L_after_wait]).
    { rewrite Hl, !elem_of_cons. tauto. }
    rewrite <- He.
    exact (proj2 (round_trip_denials 1%nat (run [Act_abort] blockedInWait) f
                    [Act_step 1%nat; Act_step 1%nat; Act_step 1%nat; Act_step 1%nat]
                    Hr' Hf Hcalls) Hpc eq_refl Hn).
Defined.



Lemma send_failure_defers_witness :
  reachable atSendRefused
  ∧ (1%nat ∉ s_outstandingMessages (run [Act_step 1; Act_step 1] atSendRefused))
  ∧ ∃ f', frames (run [Act_step 1; Act_step 1] atSendRefused) !! 1%nat = Some f'
          ∧ pc f' = L_returned ∧ result f' = false
          ∧ kauthResult f' = KAUTH_RESULT_DEFER
          ∧ unlinkedRemove f' = false.
Proof.
  assert (Hr : reachable atSendRefused) by (eexists; reflexivity).
  split; [exact Hr|].
  assert (Hf : ∃ f, frames atSendRefused !! 1%nat = Some f
                    ∧ pc f = L_send ∧ isShuttingDown f = false
                    ∧ call_sendResult (call f) ≠ 0).
  { eexists. split; [vm_compute; reflexivity|]. by repeat split. }
  destruct Hf as (f & Hf & Hl & Hloc & Hsend).
  assert (Hcalls : same_call 1%nat [Act_step 1%nat; Act_step 1%nat])
    by (repeat constructor).
  assert (Hn : (2 ≤ own_steps 1%nat [Act_step 1%nat; Act_step 1%nat])%nat)
    by (vm_compute; lia).
  exact (proj2 (proj2 (proj2
    (send_failure_defers 1%nat atSendRefused f [Act_step 1%nat; Act_step 1%nat]
       Hr Hf Hl Hloc Hsend Hcalls))) Hn).
Defined.

Lemma unhandled_response_is_ignored_witness :
  is_Success_or_Fail MessageType_KtoU_HydrateFile = false
  ∧ KauthHandler_HandleKernelMessageResponse 1 MessageType_KtoU_HydrateFile blockedInWait
    = (blockedInWait, []).
Proof.
  split; [reflexivity|].
  apply (unhandled_response_is_ignored 1 MessageType_KtoU_HydrateFile blockedInWait).
  reflexivity.
Defined.
(** ** Further properties of the gate *)

Lemma includesAny_cons action bit bits :
  includesAny action (bit :: bits)
  ↔ includes action bit = true ∨ includesAny action bits.
Proof.
  unfold includesAny. split.
  - intros (b & Hb & Hi). apply elem_of_cons in Hb as [->|Hb]; eauto.
  - intros [Hi|(b & Hb & Hi)]; [exists bit|exists b];
      (split; [rewrite elem_of_cons; tauto|done]).
Qed.

Lemma includesAny_nil action : includesAny action [] ↔ False.
Proof.
  unfold includesAny. split; [|done]. intros (b & Hb & _).
  by apply elem_of_nil in Hb.
Qed.

Lemma enumerateMask_bits action :
  ActionBitIsSet action enumerateMask = true ↔ includesAny action enumerateBits.
Proof.
  unfold enumerateMask, enumerateBits.
  rewrite !ActionBitIsSet_lor, !orb_true_iff, !includesAny_cons, includesAny_nil.
  change includes with ActionBitIsSet. tauto.
Qed.

Lemma hydrateMask_bits action :
  ActionBitIsSet action hydrateMask = true ↔ includesAny action hydrateBits.
Proof.
  unfold hydrateMask, hydrateBits.
  rewrite !ActionBitIsSet_lor, !orb_true_iff, !includesAny_cons, includesAny_nil.
  change includes with ActionBitIsSet. tauto.
Qed.

Lemma vtype_is_VDIR_true t : vtype_is_VDIR t = true ↔ t = VDIR.
Proof. destruct t; simpl; split; congruence. Qed.

(** The exits before the root lookup all end in a verdict. *)
Lemma early_exit_verdict context vn action :
  reachesRootLookup context vn = false →
  fst (HandleVnodeOperation context vn action) =
    Verdict (if crawlerDenied context vn
             then KAUTH_RESULT_DENY else KAUTH_RESULT_DEFER).
Proof.
  intros Hr. destruct (crawlerDenied context vn) eqn:Hc.
  - by apply crawlerDenied_verdict.
  - rewrite HandleVnodeOperation_unfold.
    unfold crawlerDenied in Hc. unfold reachesRootLookup in Hr.
    destruct (vn_allowedFilesystem vn); simpl in *; [|reflexivity].
    destruct (ShouldIgnoreVnodeType (vn_vtype vn) vn) as [[] t];
      simpl in *; [reflexivity|].
    unfold afterTypeSwitch, ReadVNodeFileFlags, proc_name, emit, ret,
      mbind, Gate_bind, mret, Gate_ret. simpl.
    destruct (FileFlagsBitIsSet (vn_va_flags vn) FileFlags_IsInVirtualizationRoot);
      simpl in *; [|reflexivity].
    rewrite Hc in Hr. discriminate.
Qed.

Lemma crawlerDenied_not_reaching context vn :
  crawlerDenied context vn = true → reachesRootLookup context vn = false.
Proof.
  unfold crawlerDenied, reachesRootLookup. rewrite !andb_true_iff.
  intros [[[[-> ->] ->] ->] ->]. reflexivity.
Qed.

(** The offline branch ends in defer or deny, whatever the index. *)
Lemma HandleOfflineRoot_verdict root t flags action pid procname :
  fst (HandleOfflineRoot root t flags action pid procname) =
    Verdict (if 0 <=? index root
             then offlinePolicy action (vtype_is_VDIR t)
                    (FileFlagsBitIsSet flags FileFlags_IsEmpty)
             else KAUTH_RESULT_DEFER).
Proof.
  destruct (Z.leb_spec 0 (index root)) as [Hidx|Hidx].
  - by apply HandleOfflineRoot_policy.
  - unfold HandleOfflineRoot. apply Z.leb_gt in Hidx. by rewrite Hidx.
Qed.

Lemma offlinePolicy_range action isDirectory isEmpty :
  offlinePolicy action isDirectory isEmpty = KAUTH_RESULT_DEFER
  ∨ offlinePolicy action isDirectory isEmpty = KAUTH_RESULT_DENY.
Proof.
  unfold offlinePolicy. repeat case_match; tauto.
Qed.

(** The branch of a root with a provider: a round trip or defer. *)
Lemma HandleLiveRoot_outcome root t flags action pid :
  fst (HandleLiveRoot root t flags action pid) =
    if negb (pid =? providerPid root)
       && FileFlagsBitIsSet flags FileFlags_IsEmpty
       && ActionBitIsSet action
            (if vtype_is_VDIR t then enumerateMask else hydrateMask)
    then RoundTrip root
           (if vtype_is_VDIR t then MessageType_KtoU_EnumerateDirectory
            else MessageType_KtoU_HydrateFile)
    else Verdict KAUTH_RESULT_DEFER.
Proof.
  unfold HandleLiveRoot, ret, mret, Gate_ret.
  destruct (pid =? providerPid root), (vtype_is_VDIR t),
    (ActionBitIsSet action enumerateMask), (ActionBitIsSet action hydrateMask),
    (FileFlagsBitIsSet flags FileFlags_IsEmpty); reflexivity.
Qed.

(** X1. The handler opens a round trip in exactly one situation: the
    filesystem is allowed, the type is not ignored, InVirtualizationRoot and
    Empty are set, the process is no crawler, the root found has a provider
    that is not the caller, and the action includes one of the bits of the
    node's kind. A directory asks for an enumeration on list, search, read
    security, read attributes or read extended attributes; any other node
    asks for hydration on read or write of attributes, extended attributes or
    data, or execute. *)
Theorem round_trip_opened_iff context vn action root messageType :
  fst (HandleVnodeOperation context vn action) = RoundTrip root messageType
  ↔ vn_allowedFilesystem vn = true
    ∧ fst (ShouldIgnoreVnodeType (vn_vtype vn) vn) = false
    ∧ FileFlagsBitIsSet (vn_va_flags vn) FileFlags_IsInVirtualizationRoot = true
    ∧ FileFlagsBitIsSet (vn_va_flags vn) FileFlags_IsEmpty = true
    ∧ IsFileSystemCrawler (ctx_procname context) = false
    ∧ vn_root vn = Some root
    ∧ providerUserClient root = true
    ∧ ctx_pid context ≠ providerPid root
    ∧ ((vn_vtype vn = VDIR
        ∧ messageType = MessageType_KtoU_EnumerateDirectory
        ∧ includesAny action enumerateBits)
       ∨ (vn_vtype vn ≠ VDIR
          ∧ messageType = MessageType_KtoU_HydrateFile
          ∧ includesAny action hydrateBits)).
Proof.
  rewrite <- enumerateMask_bits, <- hydrateMask_bits, <- vtype_is_VDIR_true.
  destruct (reachesRootLookup context vn) eqn:Hr.
  - rewrite reachesRootLookup_verdict by done.
    unfold reachesRootLookup in Hr. rewrite !andb_true_iff in Hr.
    destruct Hr as [[[Hfs Hig] Hin] Hc]. apply negb_true_iff in Hig, Hc.
    rewrite Hfs, Hig, Hin.
    destruct (vn_root vn) as [r|].
    + destruct (providerUserClient r) eqn:Hlive; simpl.
      * rewrite HandleLiveRoot_outcome.
        destruct (Z.eqb_spec (ctx_pid context) (providerPid r)) as [Hpid|Hpid]; simpl.
        { split; [discriminate|]. intros (_ & _ & _ & _ & _ & [= <-] & _ & ? & _). done. }
        destruct (FileFlagsBitIsSet (vn_va_flags vn) FileFlags_IsEmpty) eqn:He;
          simpl in *.
        2:{ split; [discriminate|]. intros (_ & _ & _ & ? & _). done. }
        destruct (vtype_is_VDIR (vn_vtype vn)) eqn:Hd.
        { destruct (ActionBitIsSet action enumerateMask) eqn:Hm.
          - split.
            + intros [= <- <-]. repeat split; try done. left. done.
            + intros (_ & _ & _ & _ & _ & [= <-] & _ & _ & [(_ & -> & _)|(? & _)]);
                [done|congruence].
          - split; [discriminate|].
            intros (_ & _ & _ & _ & _ & _ & _ & _ & [(_ & _ & ?)|(? & _)]);
              congruence. }
        { destruct (ActionBitIsSet action hydrateMask) eqn:Hm.
          - split.
            + intros [= <- <-]. repeat split; try done. right.
              repeat split; congruence.
            + intros (_ & _ & _ & _ & _ & [= <-] & _ & _ & [(? & _)|(_ & -> & _)]);
                [congruence|done].
          - split; [discriminate|].
            intros (_ & _ & _ & _ & _ & _ & _ & _ & [(? & _)|(_ & _ & ?)]);
              congruence. }
      * rewrite HandleOfflineRoot_verdict. split; [discriminate|].
        intros (_ & _ & _ & _ & _ & [= <-] & ? & _). congruence.
    + split; [discriminate|]. intros (_ & _ & _ & _ & _ & ? & _). done.
  - rewrite early_exit_verdict by done. split; [discriminate|].
    intros (Hfs & Hig & Hin & He & Hc & _). exfalso.
    unfold reachesRootLookup in Hr. rewrite Hfs, Hig, Hin, He, Hc in Hr.
    discriminate.
Qed.

(** X2. The gate never answers allow: a verdict of its own is defer or deny.
    It denies in two situations only, the crawler check and the policy of an
    offline root; with a provider attached and a caller that is no crawler,
    a denial can only come out of a round trip. *)
Theorem gate_verdicts context vn action kauthResult :
  fst (HandleVnodeOperation context vn action) = Verdict kauthResult →
  (kauthResult = KAUTH_RESULT_DEFER ∨ kauthResult = KAUTH_RESULT_DENY)
  ∧ (kauthResult = KAUTH_RESULT_DENY →
     crawlerDenied context vn = true
     ∨ ∃ root, reachesRootLookup context vn = true
               ∧ vn_root vn = Some root
               ∧ providerUserClient root = false
               ∧ 0 <= index root
               ∧ offlinePolicy action (vtype_is_VDIR (vn_vtype vn))
                   (FileFlagsBitIsSet (vn_va_flags vn) FileFlags_IsEmpty)
                 = KAUTH_RESULT_DENY).
Proof.
  destruct (reachesRootLookup context vn) eqn:Hr.
  - rewrite reachesRootLookup_verdict by done.
    destruct (vn_root vn) as [r|]; [|intros [= <-]; split; [by left|discriminate]].
    destruct (providerUserClient r) eqn:Hlive; simpl.
    + rewrite HandleLiveRoot_outcome. case_match; [discriminate|].
      intros [= <-]. split; [by left|discriminate].
    + rewrite HandleOfflineRoot_verdict.
      destruct (Z.leb_spec 0 (index r)) as [Hidx|Hidx].
      * intros [= <-]. split; [apply offlinePolicy_range|].
        intros Hdeny. right. exists r. done.
      * intros [= <-]. split; [by left|discriminate].
  - rewrite early_exit_verdict by done.
    destruct (crawlerDenied context vn); intros [= <-];
      (split; [tauto|]); [by left|discriminate].
Qed.


(** X4. When the flags place the vnode in a root but the root table knows
    none, the handler fails open: it logs the inconsistency and defers. *)
Theorem no_root_found_defers context vn action :
  reachesRootLookup context vn = true →
  vn_root vn = None →
  fst (HandleVnodeOperation context vn action) = Verdict KAUTH_RESULT_DEFER
  ∧ last (snd (HandleVnodeOperation context vn action)) = Some (Ev_Log Log_NoRootFound).
Proof.
  intros Hr Hroot. split.
  - rewrite reachesRootLookup_verdict by done. by rewrite Hroot.
  - unfold reachesRootLookup in Hr. rewrite !andb_true_iff in Hr.
    destruct Hr as [[[Hfs Hig] Hin] Hc]. apply negb_true_iff in Hig, Hc.
    rewrite HandleVnodeOperation_unfold, Hfs. simpl.
    destruct (ShouldIgnoreVnodeType (vn_vtype vn) vn) as [ig t]. simpl in Hig.
    subst ig. simpl.
    unfold afterTypeSwitch, ReadVNodeFileFlags, proc_name,
      VirtualizationRoots_FindForVnode, KextLog, emit, ret,
      mbind, Gate_bind, mret, Gate_ret. simpl.
    rewrite Hin. simpl. rewrite Hc, Hroot. simpl.
    change (last (t ++ [Ev_ReadVNodeFileFlags; Ev_proc_name; Ev_FindForVnode]
                    ++ [Ev_Log Log_NoRootFound]) = Some (Ev_Log Log_NoRootFound)).
    by rewrite app_assoc, last_snoc.
Qed.

(** X5. Both flag tests succeed as soon as ANY bit of the mask is set, and
    [ActionBitsNotSet] only when none is. *)
Theorem bit_tests_any_bit (word a b : Z) :
  FileFlagsBitIsSet word (Z.lor a b)
    = FileFlagsBitIsSet word a || FileFlagsBitIsSet word b
  ∧ ActionBitIsSet word (Z.lor a b)
    = ActionBitIsSet word a || ActionBitIsSet word b
  ∧ ActionBitsNotSet word (Z.lor a b)
    = ActionBitsNotSet word a && ActionBitsNotSet word b.
Proof.
  split; [apply ActionBitIsSet_lor|]. split; [apply ActionBitIsSet_lor|].
  by rewrite !ActionBitsNotSet_negb, ActionBitIsSet_lor, negb_orb.
Qed.

(** ** The relative path *)

Lemma string_app_cons c (a b : string) : String c a +:+ b = String c (a +:+ b).
Proof. reflexivity. Qed.

Lemma string_app_nil_l (b : string) : "" +:+ b = b.
Proof. reflexivity. Qed.

Lemma string_app_nil_r (a : string) : a +:+ "" = a.
Proof. induction a as [|c a IH]; [done|]. by rewrite string_app_cons, IH. Qed.

Lemma string_drop_app root rest :
  string_drop (String.length root) (root +:+ rest) = rest.
Proof.
  induction root as [|c root IH]; [by destruct rest|].
  rewrite string_app_cons. exact IH.
Qed.

Lemma string_drop_split n s :
  (n ≤ String.length s)%nat →
  ∃ pre, s = pre +:+ string_drop n s ∧ String.length pre = n.
Proof.
  revert s. induction n as [|n IH]; intros s Hn.
  - exists ""%string. split; [by destruct s|done].
  - destruct s as [|c s]; simpl in Hn; [lia|].
    destruct (IH s ltac:(lia)) as (pre & Hs & Hlen).
    exists (String c pre). rewrite string_app_cons. simpl.
    split; [by f_equal|by rewrite Hlen].
Qed.

Lemma string_app_assoc (a b c : string) : (a +:+ b) +:+ c = a +:+ (b +:+ c).
Proof.
  induction a as [|x a IH]; [done|]. by rewrite !string_app_cons, IH.
Qed.

Lemma string_app_length (a b : string) :
  String.length (a +:+ b) = (String.length a + String.length b)%nat.
Proof.
  induction a as [|x a IH]; [done|]. rewrite string_app_cons. simpl. by rewrite IH.
Qed.

(** X6. For a path under the root, [GetRelativePath] gives what follows the
    root, less one leading separator: one only, a second one stays; the root
    itself gives the empty path. *)
Theorem GetRelativePath_strips_root (root rest : string) :
  GetRelativePath (root +:+ "/" +:+ rest) root = rest
  ∧ ((∀ tail, rest ≠ String "/"%char tail) →
     GetRelativePath (root +:+ rest) root = rest)
  ∧ GetRelativePath (root +:+ "//" +:+ rest) root = "/" +:+ rest
  ∧ GetRelativePath root root = ""%string.
Proof.
  unfold GetRelativePath. split; [|split; [|split]].
  - rewrite string_drop_app. reflexivity.
  - intros Hrest. rewrite string_drop_app.
    destruct rest as [|c rest']; [done|].
    destruct (Ascii.ascii_dec c "/"%char) as [->|Hc]; [by destruct (Hrest rest')|].
    destruct c as [[] [] [] [] [] [] [] []]; try done.
  - rewrite string_drop_app. reflexivity.
  - assert (string_drop (String.length root) root = ""%string) as ->; [|done].
    pose proof (string_drop_app root "") as H. by rewrite string_app_nil_r in H.
Qed.

(** X7. Under the assertion of the source, that the path is at least as long
    as the root, the result is a suffix of the path which starts right after
    as many characters as the root has, or one further: the pointer returned
    stays inside the path. *)
Theorem GetRelativePath_is_suffix (path root : string) :
  (String.length root ≤ String.length path)%nat →
  ∃ skipped,
    path = skipped +:+ GetRelativePath path root
    ∧ (String.length skipped = String.length root
       ∨ String.length skipped = S (String.length root)).
Proof.
  intros Hlen. unfold GetRelativePath.
  destruct (string_drop_split _ _ Hlen) as (pre & Hpath & Hpre).
  destruct (string_drop (String.length root) path) as [|c rest] eqn:Hdrop.
  - exists pre. split; [done|by left].
  - destruct (Ascii.ascii_dec c "/"%char) as [->|Hc].
    + exists (pre +:+ "/")%string. split.
      * by rewrite string_app_assoc.
      * right. rewrite string_app_length, Hpre. simpl. lia.
    + exists pre. split; [|by left].
      rewrite Hpath at 1. f_equal.
      destruct c as [[] [] [] [] [] [] [] []]; try done.
Qed.

(** ** Further properties of the round trip *)

(** *** Schedules that leave out some actions *)

Section RestrictedSchedules.
Variable a : addr.
Variable allowed : Action → bool.
Variable Inv : nat → World → Prop.

Hypothesis Inv_env : ∀ k act w,
  allowed act = true → is_step_of a act = false →
  Inv k w → Inv k (exec act w).
Hypothesis Inv_step : ∀ k w, Inv k w → Inv (pred k) (step a w).

Lemma run_own_steps_allowed acts : ∀ k w,
  Forall (λ act, allowed act = true) acts →
  Inv k w → Inv (k - own_steps a acts) (run acts w).
Proof using Inv_env Inv_step.
  induction acts as [|act acts IH]; intros k w Hok HI.
  - simpl. by replace (k - own_steps a [])%nat with k by (cbn; lia).
  - apply Forall_cons in Hok as [Hact Hok]. rewrite run_cons.
    unfold own_steps. rewrite filter_cons.
    destruct (is_step_of a act) eqn:Hstep.
    + rewrite decide_True by done. simpl.
      assert (act = Act_step a) as ->.
      { destruct act; try discriminate. simpl in Hstep.
        by apply bool_decide_eq_true in Hstep as ->. }
      simpl. replace (k - S (length (filter (λ act, is_step_of a act = true) acts)))%nat
        with (pred k - own_steps a acts)%nat by (unfold own_steps; lia).
      by apply IH, Inv_step.
    + rewrite decide_False by (by intros ?).
      by apply IH, Inv_env.
Qed.
End RestrictedSchedules.

(** *** The failure to resolve the path *)

(** X8. When [vn_getpath] fails the call is over in one step: it returns
    false with the verdict deny, writes no error code, takes no message id
    and never touches the registry; the cleanup is not run. *)
Theorem path_resolution_failure a w f :
  reachable w → frames w !! a = Some f →
  pc f = L_entry → vn_path (call_vnode (call f)) = None →
  s_outstandingMessages (step a w) = s_outstandingMessages w
  ∧ s_nextMessageId (step a w) = s_nextMessageId w
  ∧ s_isShuttingDown (step a w) = s_isShuttingDown w
  ∧ (a ∉ s_outstandingMessages (step a w))
  ∧ ∃ f', frames (step a w) !! a = Some f'
          ∧ pc f' = L_returned ∧ result f' = false
          ∧ kauthResult f' = KAUTH_RESULT_DENY
          ∧ kauthError f' = kauthError f
          ∧ unlinkedRemove f' = unlinkedRemove f.
Proof.
  intros Hr Hf Hl Hpath.
  apply reachable_wf in Hr as (Hframes & _). apply Hframes in Hf as Hfwf.
  unfold frame_wf in Hfwf. rewrite Hl in Hfwf. destruct Hfwf as [Hnotin Hres].
  unfold TrySendRequestAndWaitForResponse_step. rewrite Hf, Hl. simpl.
  rewrite Hpath. simpl. repeat split; try done.
  eexists. rewrite lookup_insert_eq. split; [reflexivity|]. by simpl.
Qed.

(** *** The outputs of a call *)

Lemma all_outputs_wf_update w w' b fb' :
  all_outputs_wf w → frames w' = <[b := fb']> (frames w) →
  outputs_wf fb' → all_outputs_wf w'.
Proof.
  intros Hall Hfs Hb a f. rewrite Hfs.
  destruct (decide (a = b)) as [->|Hne].
  - rewrite lookup_insert_eq. by intros [= <-].
  - rewrite lookup_insert_ne by done. apply Hall.
Qed.

Lemma all_outputs_wf_step b w : all_outputs_wf w → all_outputs_wf (step b w).
Proof.
  intros Hall. unfold TrySendRequestAndWaitForResponse_step.
  destruct (frames w !! b) as [fb|] eqn:Hfb; [|done].
  pose proof (Hall b fb Hfb) as (Hrange & Hearly & Htrue & Herr).
  destruct (pc fb) eqn:Hpc; simpl;
    repeat match goal with
           | |- context [match vn_path ?v with _ => _ end] => destruct (vn_path v)
           | |- context [if ?c then _ else _] => destruct c eqn:?
           end;
    try done;
    (eapply (all_outputs_wf_update w _ b); [exact Hall | reflexivity |]);
    unfold outputs_wf; simpl;
    rewrite ?Hpc in Hearly;
    rewrite !elem_of_cons, !elem_of_nil in Hearly;
    rewrite !elem_of_cons, !elem_of_nil;
    intuition (try discriminate; try congruence; eauto).
Qed.

Lemma all_outputs_wf_exec act w : all_outputs_wf w → all_outputs_wf (exec act w).
Proof.
  intros Hall. destruct act as [b c stack|b|messageId responseType|]; simpl.
  - unfold TrySendRequestAndWaitForResponse_enter.
    destruct (frames w !! b) as [old|]; [destruct (pc old); try done|];
      (eapply (all_outputs_wf_update w _ b); [exact Hall | reflexivity |]);
      unfold outputs_wf; simpl; rewrite !elem_of_cons; tauto.
  - by apply all_outputs_wf_step.
  - intros a f Ha.
    destruct (response_frames messageId responseType w a) as [E|(g & Hg & E)];
      rewrite E in Ha; [by apply (Hall a)|].
    injection Ha as <-. by apply (Hall a g).
  - done.
Qed.

(** X9. What a call hands back. The verdict is defer or deny, never allow.
    Until the response has been read the result is false and no error code
    is written. The result true goes with the verdict defer and no error
    code; the only error code ever written is EAGAIN, and it goes with the
    verdict deny and the result false. *)
Theorem round_trip_outputs a w f :
  reachable w → frames w !! a = Some f →
  (kauthResult f = KAUTH_RESULT_DEFER ∨ kauthResult f = KAUTH_RESULT_DENY)
  ∧ kauthResult f ≠ KAUTH_RESULT_ALLOW
  ∧ (pc f ∈ [L_cleanup; L_returned]
     ∨ (result f = false ∧ kauthError f = None))
  ∧ (result f = true →
     kauthResult f = KAUTH_RESULT_DEFER ∧ kauthError f = None)
  ∧ (kauthError f = None
     ∨ (kauthError f = Some EAGAIN ∧ kauthResult f = KAUTH_RESULT_DENY
        ∧ result f = false)).
Proof.
  intros [acts ->] Hf.
  assert (Hrun : ∀ acts w, all_outputs_wf w → all_outputs_wf (run acts w)).
  { clear. induction acts as [|act acts IH]; intros w Hw; [done|].
    rewrite run_cons. by apply IH, all_outputs_wf_exec. }
  assert (Hall : all_outputs_wf (run acts KauthHandler_Init)).
  { apply Hrun. intros a0 f0 H0. simpl in H0. by rewrite lookup_empty in H0. }
  destruct (Hall a f Hf) as (Hrange & Hearly & Htrue & Herr).
  split; [done|]. split; [|done].
  destruct Hrange as [-> | ->]; discriminate.
Qed.

(** *** Who is in the registry *)

Lemma registered_frame a w :
  wf w → a ∈ s_outstandingMessages w →
  ∃ f, frames w !! a = Some f
       ∧ pc f ∈ [L_send; L_wait_received; L_wait_shutdown;
                 L_after_wait; L_response; L_cleanup]
       ∧ isShuttingDown f = false.
Proof.
  intros (Hframes & Hreg & Hnd) Hin.
  destruct (Hreg a Hin) as [f Hf]. exists f. split; [done|].
  apply Hframes in Hf. unfold frame_wf in Hf.
  rewrite !elem_of_cons. destruct (pc f); intuition.
Qed.


(** *** Who can be written to *)





(** *** Repeated responses *)

Lemma deliverResponse_not_matching messageId responseType l fs b :
  (∀ g, fs !! b = Some g → request_messageId (message g) ≠ messageId) →
  fst (deliverResponse messageId responseType l fs) !! b = fs !! b.
Proof.
  intros Hb. induction l as [|c l IH]; [done|]. simpl.
  destruct (fs !! c) as [g|] eqn:Hc; [|exact IH].
  destruct (Z.eqb_spec (request_messageId (message g)) messageId) as [Hm|Hm];
    [|exact IH].
  simpl. destruct (decide (c = b)) as [->|Hne].
  - by destruct (Hb g Hc).
  - by rewrite lookup_insert_ne.
Qed.

Lemma deliverResponse_twice messageId t1 t2 l fs :
  deliverResponse messageId t2 l (fst (deliverResponse messageId t1 l fs))
  = deliverResponse messageId t2 l fs.
Proof.
  induction l as [|b l IH]; [done|]. simpl.
  destruct (fs !! b) as [g|] eqn:Hb.
  - destruct (Z.eqb_spec (request_messageId (message g)) messageId) as [Hm|Hm].
    + simpl. rewrite lookup_insert_eq. simpl.
      destruct (Z.eqb_spec (request_messageId (message g)) messageId); [|done].
      by rewrite insert_insert_eq.
    + rewrite deliverResponse_not_matching, Hb
        by (intros g' Hg'; congruence).
      destruct (Z.eqb_spec (request_messageId (message g)) messageId); [done|].
      exact IH.
  - rewrite deliverResponse_not_matching, Hb by (intros g' Hg'; congruence).
    exact IH.
Qed.

Lemma response_pair (k : ResponseKind) messageId w :
  KauthHandler_HandleKernelMessageResponse messageId (responseType_of k) w
  = (set_frames
       (fst (deliverResponse messageId (responseType_of k)
               (s_outstandingMessages w) (frames w))) w,
     [Eff_Mutex_Acquire]
     ++ snd (deliverResponse messageId (responseType_of k)
               (s_outstandingMessages w) (frames w))
     ++ [Eff_Mutex_Release]).
Proof.
  unfold KauthHandler_HandleKernelMessageResponse.
  destruct k; simpl; by destruct (deliverResponse _ _ _ _).
Qed.

(** X12. The last response wins. A second Success or Fail response with the
    same id, arriving while the record is still registered, replaces the
    first and wakes the same thread again; the outcome is the one of the
    second response alone. Repeating a response changes nothing. *)
Theorem last_response_wins (k1 k2 : ResponseKind) messageId w :
  KauthHandler_HandleKernelMessageResponse messageId (responseType_of k2)
    (fst (KauthHandler_HandleKernelMessageResponse messageId (responseType_of k1) w))
  = KauthHandler_HandleKernelMessageResponse messageId (responseType_of k2) w.
Proof.
  rewrite (response_pair k1), !(response_pair k2). simpl.
  by rewrite deliverResponse_twice.
Qed.

(** *** Shutdown *)

(** X13. The shutdown reaches every thread that is blocked. In a reachable
    world in which the flag is not yet set, [AbortAllOutstandingEvents] sets
    it, leaves the registry to the threads, and issues a wakeup for the
    record of every thread in its wait loop; it wakes registered records
    only. *)
Theorem abort_wakes_every_blocked_thread w :
  reachable w → s_isShuttingDown w = false →
  s_isShuttingDown (fst (AbortAllOutstandingEvents w)) = true
  ∧ s_outstandingMessages (fst (AbortAllOutstandingEvents w))
    = s_outstandingMessages w
  ∧ frames (fst (AbortAllOutstandingEvents w)) = frames w
  ∧ (∀ a, Eff_wakeup a ∈ snd (AbortAllOutstandingEvents w)
          ↔ a ∈ s_outstandingMessages w)
  ∧ ∀ a f, frames w !! a = Some f →
           pc f ∈ [L_wait_received; L_wait_shutdown] →
           Eff_wakeup a ∈ snd (AbortAllOutstandingEvents w).
Proof.
  intros Hr Hflag.
  assert (Hwake : ∀ a, Eff_wakeup a ∈ snd (AbortAllOutstandingEvents w)
                       ↔ a ∈ s_outstandingMessages w).
  { intros a. simpl. rewrite elem_of_cons, elem_of_app, list_elem_of_singleton.
    rewrite list_elem_of_fmap. split.
    - intros [?|[(b & [= <-] & Hb)|?]]; done.
    - intros Hin. right. left. eauto. }
  repeat split; try done; try apply Hwake.
  intros a f Hf Hpc. apply Hwake.
  apply reachable_wf in Hr as (Hframes & _). apply Hframes in Hf.
  unfold frame_wf in Hf. rewrite !elem_of_cons, elem_of_nil in Hpc.
  destruct (isShuttingDown f) eqn:Hloc.
  - destruct Hpc as [Hl|[Hl|[]]]; rewrite Hl in Hf;
      destruct Hf as (_ & Himp & _); specialize (Himp eq_refl); congruence.
  - destruct Hpc as [Hl|[Hl|[]]]; rewrite Hl in Hf; by apply Hf.
Qed.




(** *** Message ids *)

Lemma wrap_int32_succ n : 1 <= n < 2 ^ 31 - 1 → wrap_int32 (n + 1) = n + 1.
Proof.
  intros Hn. unfold wrap_int32. rewrite Z.mod_small; lia.
Qed.

Lemma to_uint64_small n : 1 <= n < 2 ^ 31 → to_uint64 n = n.
Proof. intros Hn. unfold to_uint64. apply Z.mod_small. lia. Qed.

Lemma ids_wf_update w w' b fb' :
  ids_wf w →
  frames w' = <[b := fb']> (frames w) →
  s_nextMessageId w' = s_nextMessageId w →
  (has_id fb' = true →
   ∃ fb, frames w !! b = Some fb ∧ has_id fb = true
         ∧ request_messageId (message fb') = request_messageId (message fb)) →
  ids_wf w'.
Proof.
  intros (Hnext & Hrange & Huniq) Hfs Hn Hb. split; [by rewrite Hn|]. split.
  - intros a f. rewrite Hfs, Hn. destruct (decide (a = b)) as [->|Hne].
    + rewrite lookup_insert_eq. intros [= <-] Hid.
      destruct (Hb Hid) as (fb & Hfb & Hidb & ->). eauto.
    + rewrite lookup_insert_ne by done. eauto.
  - intros a c f g. rewrite Hfs.
    destruct (decide (a = b)) as [->|Ha], (decide (c = b)) as [->|Hc]; [done|..];
      rewrite ?lookup_insert_eq, ?lookup_insert_ne by done.
    + intros [= <-] Hg Hidf Hidg. destruct (Hb Hidf) as (fb & Hfb & Hidb & ->).
      eauto.
    + intros Hf [= <-] Hidf Hidg. destruct (Hb Hidg) as (fb & Hfb & Hidb & ->).
      eauto.
    + eauto.
Qed.

Lemma ids_wf_step b w :
  ids_wf w → s_nextMessageId w < 2 ^ 31 - 1 →
  ids_wf (step b w)
  ∧ s_nextMessageId (step b w) <= s_nextMessageId w + 1.
Proof.
  intros Hids Hlt. pose proof Hids as (Hnext & Hrange & Huniq).
  unfold TrySendRequestAndWaitForResponse_step.
  destruct (frames w !! b) as [fb|] eqn:Hfb; [|split; [done|lia]].
  destruct (pc fb) eqn:Hpc.
  2:{ (* L_nextMessageId *)
    simpl. rewrite wrap_int32_succ by lia. split; [|lia].
    split; [simpl; lia|]. split.
    - intros a f. simpl. destruct (decide (a = b)) as [->|Hne].
      + rewrite lookup_insert_eq. intros [= <-] _. simpl.
        rewrite to_uint64_small by lia. lia.
      + rewrite lookup_insert_ne by done. intros Hf Hid.
        specialize (Hrange a f Hf Hid). lia.
    - intros a c f g. simpl.
      destruct (decide (a = b)) as [->|Ha], (decide (c = b)) as [->|Hc]; [done|..];
        rewrite ?lookup_insert_eq, ?lookup_insert_ne by done.
      + intros [= <-] Hg _ Hidg. simpl. rewrite to_uint64_small by lia.
        specialize (Hrange c g Hg Hidg). lia.
      + intros Hf [= <-] Hidf _. simpl. rewrite to_uint64_small by lia.
        specialize (Hrange a f Hf Hidf). lia.
      + eauto. }
  all: simpl;
    repeat match goal with
           | |- context [match vn_path ?v with _ => _ end] => destruct (vn_path v)
           | |- context [if ?c then _ else _] => destruct c eqn:?
           end;
    simpl; (split; [|lia]);
    try done;
    (eapply (ids_wf_update w _ b); [exact Hids | reflexivity | reflexivity |]);
    unfold has_id; simpl; try discriminate;
    intros _; exists fb; unfold has_id; rewrite Hpc; done.
Qed.

Lemma ids_wf_exec act w :
  ids_wf w → s_nextMessageId w < 2 ^ 31 - 1 →
  ids_wf (exec act w)
  ∧ s_nextMessageId (exec act w) <= s_nextMessageId w + 1.
Proof.
  intros Hids Hlt. destruct act as [b c stack|b|messageId responseType|]; simpl.
  - unfold TrySendRequestAndWaitForResponse_enter.
    destruct (frames w !! b) as [old|]; [destruct (pc old)|];
      (split; [|simpl; lia]); try done;
      (eapply (ids_wf_update w _ b); [exact Hids | reflexivity | reflexivity |]);
      discriminate.
  - by apply ids_wf_step.
  - assert (Hn : s_nextMessageId
                   (fst (KauthHandler_HandleKernelMessageResponse messageId responseType w))
                 = s_nextMessageId w).
    { unfold KauthHandler_HandleKernelMessageResponse.
      destruct responseType; try done; by destruct (deliverResponse _ _ _ _). }
    rewrite Hn. split; [|lia].
    destruct Hids as (Hnext & Hrange & Huniq).
    assert (Hold : ∀ a f,
      frames (fst (KauthHandler_HandleKernelMessageResponse messageId responseType w))
        !! a = Some f →
      ∃ g, frames w !! a = Some g ∧ has_id g = has_id f
           ∧ request_messageId (message g) = request_messageId (message f)).
    { intros a f Ha.
      destruct (response_frames messageId responseType w a) as [E|(g & Hg & E)];
        rewrite E in Ha; [eauto|]. injection Ha as <-. eauto. }
    split; [by rewrite Hn|]. split.
    + intros a f Ha Hid. rewrite Hn.
      destruct (Hold a f Ha) as (g & Hg & Hidg & <-).
      apply (Hrange a g Hg). congruence.
    + intros a c f g Ha Hc Hidf Hidg Heq.
      destruct (Hold a f Ha) as (f0 & Hf0 & Hidf0 & Hm0).
      destruct (Hold c g Hc) as (g0 & Hg0 & Hidg0 & Hm1).
      apply (Huniq a c f0 g0); congruence.
  - split; [done|lia].
Qed.

Lemma ids_wf_run acts : ∀ w n,
  ids_wf w → s_nextMessageId w <= 1 + n →
  n + Z.of_nat (length acts) <= 2 ^ 31 - 2 →
  ids_wf (run acts w)
  ∧ s_nextMessageId (run acts w) <= 1 + n + Z.of_nat (length acts).
Proof.
  induction acts as [|act acts IH]; intros w n Hids Hn Hlen.
  - simpl. split; [done|lia].
  - rewrite run_cons. simpl length in *.
    destruct (ids_wf_exec act w Hids ltac:(lia)) as [Hids' Hn'].
    destruct (IH (exec act w) (n + 1) Hids' ltac:(lia) ltac:(lia)) as [? ?].
    split; [done|lia].
Qed.

Lemma ids_wf_init : ids_wf KauthHandler_Init.
Proof.
  split; [simpl; lia|]. split.
  - intros a f Hf. simpl in Hf. by rewrite lookup_empty in Hf.
  - intros a b f g Hf. simpl in Hf. by rewrite lookup_empty in Hf.
Qed.

(** X15. Message ids are handed out in increasing order, starting with 1, and
    as long as the 32-bit counter has not wrapped (here: in a world reached
    by at most 2^31 - 2 actions) the records in the registry carry pairwise
    different ids, all positive and below the counter: a response matches at
    most one registered record. *)
Theorem message_ids_unique acts :
  Z.of_nat (length acts) <= 2 ^ 31 - 2 →
  unique_ids (run acts KauthHandler_Init)
  ∧ 1 <= s_nextMessageId (run acts KauthHandler_Init) <= 1 + Z.of_nat (length acts)
  ∧ ∀ a f,
      a ∈ s_outstandingMessages (run acts KauthHandler_Init) →
      frames (run acts KauthHandler_Init) !! a = Some f →
      1 <= request_messageId (message f)
        < s_nextMessageId (run acts KauthHandler_Init).
Proof.
  intros Hlen.
  destruct (ids_wf_run acts KauthHandler_Init 0 ids_wf_init ltac:(simpl; lia)
              ltac:(lia)) as [(Hnext & Hrange & Huniq) Hn].
  assert (Hr : reachable (run acts KauthHandler_Init)) by (by exists acts).
  assert (Hid : ∀ a f, a ∈ s_outstandingMessages (run acts KauthHandler_Init) →
                       frames (run acts KauthHandler_Init) !! a = Some f →
                       has_id f = true).
  { intros a f Hin Hf.
    apply (registered_frame a _ (reachable_wf _ Hr)) in Hin as (f' & Hf' & Hpc & _).
    rewrite Hf in Hf'. injection Hf' as <-.
    rewrite !elem_of_cons, elem_of_nil in Hpc. unfold has_id.
    destruct (pc f); intuition discriminate. }
  split; [|split; [lia|]].
  - intros a b f g Ha Hb Hf Hg Heq. apply (Huniq a b f g); eauto.
  - intros a f Ha Hf. apply (Hrange a f Hf). eauto.
Qed.

(** *** A round trip that is answered *)

Lemma keeps_waiting_frame a act w :
  keeps_waiting a act = true → is_step_of a act = false →
  frames (exec act w) !! a = frames w !! a
  ∧ s_isShuttingDown (exec act w) = s_isShuttingDown w.
Proof.
  intros Hact Hstep.
  destruct act as [b c stack|b|messageId responseType|]; simpl in *.
  - apply negb_true_iff, bool_decide_eq_false in Hact.
    destruct (enter_static b c stack w) as [_ ->].
    by rewrite enter_frames_other.
  - apply bool_decide_eq_false in Hstep.
    by rewrite step_frames_other, step_flag.
  - apply negb_true_iff in Hact. by rewrite unhandled_response.
  - discriminate.
Qed.

Lemma answered_path_env a k e0 n act w :
  keeps_waiting a act = true → is_step_of a act = false →
  answered_path a k e0 n w → answered_path a k e0 n (exec act w).
Proof.
  intros Hact Hstep (Hwf & Hflag & f & Hf & Hpc).
  destruct (keeps_waiting_frame a act w Hact Hstep) as [Hfs Hfl].
  split; [by apply wf_exec|]. split; [congruence|].
  exists f. by rewrite Hfs.
Qed.

Lemma answered_path_step a k e0 n w :
  answered_path a k e0 n w → answered_path a k e0 (pred n) (step a w).
Proof.
  intros (Hwf & Hflag & f & Hf & Hpc).
  split; [by apply wf_step|]. split; [by rewrite step_flag|].
  unfold TrySendRequestAndWaitForResponse_step. rewrite Hf.
  destruct (pc f) eqn:Hl; try done; simpl in Hpc; simpl.
  - (* L_wait_received *)
    destruct Hpc as (? & ? & -> & ?). simpl.
    eexists. rewrite lookup_insert_eq. split; [reflexivity|]. simpl.
    repeat split; try done; lia.
  - (* L_wait_shutdown *)
    rewrite Hflag. simpl.
    eexists. rewrite lookup_insert_eq. split; [reflexivity|]. simpl.
    destruct Hpc as (? & ? & ? & ?). repeat split; try done; lia.
  - (* L_after_wait *)
    rewrite Hflag. simpl.
    eexists. rewrite lookup_insert_eq. split; [reflexivity|]. simpl.
    destruct Hpc as (? & ? & ?). repeat split; try done; lia.
  - (* L_response *)
    destruct Hpc as (? & ? & ->).
    pose proof (proj1 Hwf a f Hf) as Hfwf. unfold frame_wf in Hfwf.
    rewrite Hl in Hfwf.
    destruct k; simpl;
      (eexists; rewrite lookup_insert_eq; split; [reflexivity|]; simpl;
       repeat split; try done; try tauto; lia).
  - (* L_cleanup *)
    eexists. rewrite lookup_insert_eq. split; [reflexivity|]. simpl.
    destruct Hpc as (? & ?). split; [lia|]. by destruct k.
  - (* L_returned *)
    exists f. rewrite Hl. split; [done|]. destruct Hpc as (? & ?).
    split; [lia|done].
Qed.

(** X16. The round trip from the provider's answer to the verdict. A thread
    waits; the flag is not set; its id is its own. A Success or Fail response
    with that id is delivered. Then, under any schedule without shutdown,
    without a further Success or Fail response and without a new call on the
    frame, the thread has returned after five steps of its own and its record
    has left the registry: on Success with the result true, the verdict defer
    and the error code untouched, on Fail with the result false, the verdict
    deny and the error code EAGAIN. *)
Theorem answered_round_trip (k : ResponseKind) a w f acts :
  reachable w → unique_ids w → s_isShuttingDown w = false →
  frames w !! a = Some f →
  pc f ∈ [L_wait_received; L_wait_shutdown] →
  Forall (λ act, keeps_waiting a act = true) acts →
  (5 ≤ own_steps a acts)%nat →
  (a ∉ s_outstandingMessages
         (run acts (exec (Act_response (request_messageId (message f))
                            (responseType_of k)) w)))
  ∧ ∃ f', frames (run acts (exec (Act_response (request_messageId (message f))
                                    (responseType_of k)) w)) !! a = Some f'
          ∧ pc f' = L_returned
          ∧ match k with
            | Success => result f' = true
                         ∧ kauthResult f' = KAUTH_RESULT_DEFER
                         ∧ kauthError f' = kauthError f
            | Fail => result f' = false
                      ∧ kauthResult f' = KAUTH_RESULT_DENY
                      ∧ kauthError f' = Some EAGAIN
            end.
Proof.
  intros Hr Huniq Hflag Hf Hpc Hacts Hn.
  apply reachable_wf in Hr as Hwf. pose proof Hwf as (Hframes & _).
  assert (Hin : a ∈ s_outstandingMessages w).
  { apply Hframes in Hf as Hfwf. unfold frame_wf in Hfwf.
    rewrite !elem_of_cons, elem_of_nil in Hpc.
    destruct (isShuttingDown f) eqn:Hloc.
    - destruct Hpc as [Hl|[Hl|[]]]; rewrite Hl in Hfwf;
        destruct Hfwf as (_ & Himp & _); specialize (Himp eq_refl); congruence.
    - destruct Hpc as [Hl|[Hl|[]]]; rewrite Hl in Hfwf; by apply Hfwf. }
  assert (H5 : answered_path a k (kauthError f) 5
                 (exec (Act_response (request_messageId (message f))
                          (responseType_of k)) w)).
  { split; [by apply wf_exec|]. simpl.
    destruct (response_static (request_messageId (message f)) (responseType_of k) w)
      as [_ ->].
    split; [done|].
    rewrite response_pair. simpl.
    rewrite (deliverResponse_unique _ _ _ _ a f Hin Hf eq_refl).
    2:{ intros b g Hb Hg Hid. by apply (Huniq b a g f). }
    simpl. eexists. rewrite lookup_insert_eq. split; [reflexivity|]. simpl.
    rewrite !elem_of_cons, elem_of_nil in Hpc.
    destruct Hpc as [->|[->|[]]]; repeat split; lia. }
  pose proof (run_own_steps_allowed a (keeps_waiting a) (answered_path a k (kauthError f))
                (answered_path_env a k _) (answered_path_step a k _)
                acts 5%nat _ Hacts H5) as (Hwf' & _ & f' & Hf' & Hpc').
  replace (5 - own_steps a acts)%nat with 0%nat in Hpc' by lia.
  destruct Hwf' as (Hframes' & _). apply Hframes' in Hf' as Hfwf'.
  unfold frame_wf in Hfwf'.
  destruct (pc f') eqn:Hl'; try done; try lia.
  split; [done|]. exists f'. split; [done|]. split; [done|]. tauto.
Qed.

(** *** A Success response *)

Lemma success_path_env a e0 k act w :
  is_step_of a act = false → is_call_of a act = false →
  success_path a e0 k w → success_path a e0 k (exec act w).
Proof.
  intros Hstep Hcall (Hwf & f & Hf & Hpc).
  split; [by apply wf_exec|].
  destruct (env_frame a act w f Hstep Hcall Hf) as [m Hm].
  exists (set_message m f). done.
Qed.

Lemma success_path_step a e0 k w :
  success_path a e0 k w → success_path a e0 (pred k) (step a w).
Proof.
  intros (Hwf & f & Hf & Hpc). split; [by apply wf_step|].
  unfold TrySendRequestAndWaitForResponse_step. rewrite Hf.
  destruct (pc f) eqn:Hl; try done; simpl.
  - eexists. rewrite lookup_insert_eq. split; [reflexivity|]. simpl. tauto.
  - exists f. by rewrite Hf, Hl.
Qed.

(** X24. A round trip that reads the response Success returns true with the
    verdict defer, writes no error code and takes its record out of the
    registry, whatever happens between its steps: a later Fail response or
    the shutdown come too late. *)
Theorem success_returns_true a w f acts :
  reachable w → frames w !! a = Some f →
  pc f = L_response →
  is_Response_Success (response (message f)) = true →
  same_call a acts → (1 ≤ own_steps a acts)%nat →
  (a ∉ s_outstandingMessages (run acts (step a w)))
  ∧ ∃ f', frames (run acts (step a w)) !! a = Some f'
          ∧ pc f' = L_returned ∧ result f' = true
          ∧ kauthResult f' = KAUTH_RESULT_DEFER
          ∧ kauthError f' = kauthError f.
Proof.
  intros Hr Hf Hl Hresp Hcalls Hn. apply reachable_wf in Hr as Hwf.
  assert (H1 : success_path a (kauthError f) 1 (step a w)).
  { split; [by apply wf_step|].
    unfold TrySendRequestAndWaitForResponse_step. rewrite Hf, Hl, Hresp. simpl.
    eexists. rewrite lookup_insert_eq. split; [reflexivity|]. simpl.
    repeat split; lia. }
  pose proof (run_own_steps a (success_path a (kauthError f))
                (success_path_env a _) (success_path_step a _)
                acts 1%nat _ Hcalls H1) as (Hwf' & f' & Hf' & Hpc).
  replace (1 - own_steps a acts)%nat with 0%nat in Hpc by lia.
  destruct Hwf' as (Hframes' & _). apply Hframes' in Hf' as Hfwf'.
  unfold frame_wf in Hfwf'.
  destruct (pc f') eqn:Hl'; try done; try lia.
  split; [done|]. exists f'. tauto.
Qed.

(** ** The counter of active events *)

#[local] Instance Label_eq_dec : EqDecision Label.
Proof. solve_decision. Defined.

Lemma wrap_int32_add x y : wrap_int32 (wrap_int32 x + y) = wrap_int32 (x + y).
Proof.
  unfold wrap_int32. f_equal.
  replace ((x + 2 ^ 31) mod 2 ^ 32 - 2 ^ 31 + y + 2 ^ 31)
    with ((x + 2 ^ 31) mod 2 ^ 32 + y) by lia.
  rewrite Zplus_mod_idemp_l. f_equal. lia.
Qed.

Lemma wrap_int32_small x : - 2 ^ 31 <= x < 2 ^ 31 → wrap_int32 x = x.
Proof. intros Hx. unfold wrap_int32. rewrite Z.mod_small; lia. Qed.

Lemma gate_verdict_range context vn action v :
  fst (HandleVnodeOperation context vn action) = Verdict v →
  v = KAUTH_RESULT_DEFER ∨ v = KAUTH_RESULT_DENY.
Proof.
  destruct (reachesRootLookup context vn) eqn:Hr.
  - rewrite reachesRootLookup_verdict by done.
    destruct (vn_root vn) as [r|]; [|intros [= <-]; by left].
    destruct (providerUserClient r); simpl.
    + rewrite HandleLiveRoot_outcome. case_match; [discriminate|].
      intros [= <-]. by left.
    + rewrite HandleOfflineRoot_verdict. intros [= <-].
      case_match; [apply offlinePolicy_range|by left].
  - rewrite early_exit_verdict by done.
    destruct (crawlerDenied context vn); intros [= <-]; tauto.
Qed.

Lemma kext_wf_boot : kext_wf Kext_boot.
Proof.
  split; [apply wf_init|]. split; [|split; [|split]].
  - intros a f Hf. simpl in Hf. by rewrite lookup_empty in Hf.
  - simpl. by rewrite map_size_empty.
  - intros a f Hf. simpl in Hf. by rewrite lookup_empty in Hf.
  - intros a v Hv. simpl in Hv. by rewrite lookup_empty in Hv.
Qed.

Lemma kext_wf_invoke a context vn action k :
  kext_wf k → kext_wf (kexec (K_invoke a context vn action) k).
Proof.
  intros (Hwf & Hout & Hcount & Hlive & Hleave). simpl.
  destruct (invocations k !! a) eqn:Ha; [done|].
  split; [done|]. split; [done|]. simpl. split; [|split].
  - rewrite map_size_insert_None by done. rewrite Hcount, wrap_int32_add.
    f_equal. lia.
  - intros b f Hf Hpc. specialize (Hlive b f Hf Hpc).
    destruct (decide (b = a)) as [->|Hne]; [congruence|].
    by rewrite lookup_insert_ne.
  - intros b v. destruct (decide (b = a)) as [->|Hne].
    + rewrite lookup_insert_eq. discriminate.
    + rewrite lookup_insert_ne by done. apply Hleave.
Qed.

Lemma kext_wf_relabel a inv k w' :
  kext_wf k → is_Some (invocations k !! a) →
  wf w' → all_outputs_wf w' →
  (∀ b f, frames w' !! b = Some f → pc f ≠ L_returned →
          <[a := inv]> (invocations k) !! b = Some Inv_roundTrip) →
  (∀ v, inv = Inv_leaving v → v = KAUTH_RESULT_DEFER ∨ v = KAUTH_RESULT_DENY) →
  kext_wf {| kext_world := w';
             s_numActiveKauthEvents := s_numActiveKauthEvents k;
             invocations := <[a := inv]> (invocations k) |}.
Proof.
  intros (Hwf & Hout & Hcount & Hlive & Hleave) [old Hold] Hwf' Hout' Hlive' Hinv.
  split; [done|]. split; [done|]. simpl. split; [|split; [done|]].
  - by rewrite map_size_insert_Some.
  - intros b v. destruct (decide (b = a)) as [->|Hne].
    + rewrite lookup_insert_eq. intros [= ->]. by apply Hinv.
    + rewrite lookup_insert_ne by done. apply Hleave.
Qed.

Lemma kext_wf_classify a sendResult stack k :
  kext_wf k → kext_wf (kexec (K_classify a sendResult stack) k).
Proof.
  intros Hk. pose proof Hk as (Hwf & Hout & Hcount & Hlive & Hleave). simpl.
  destruct (invocations k !! a) as [[context vn action| |]|] eqn:Ha; try done.
  assert (Hfree : ∀ f, frames (kext_world k) !! a = Some f → pc f = L_returned).
  { intros f Hf. destruct (decide (pc f = L_returned)) as [|Hpc]; [done|].
    specialize (Hlive a f Hf Hpc). congruence. }
  destruct (fst (HandleVnodeOperation context vn action)) as [v|root mt] eqn:Hgate.
  - apply kext_wf_relabel; try done.
    + intros b f Hf Hpc. specialize (Hlive b f Hf Hpc).
      destruct (decide (b = a)) as [->|Hne]; [congruence|].
      by rewrite lookup_insert_ne.
    + intros v' [= <-]. by eapply gate_verdict_range.
  - unfold HandleVnodeOperation_enter. rewrite Hgate.
    apply kext_wf_relabel; try done.
    + by apply wf_enter.
    + by apply (all_outputs_wf_exec (Act_call _ _ _)).
    + intros b f Hf Hpc. destruct (decide (b = a)) as [->|Hne].
      * by rewrite lookup_insert_eq.
      * rewrite lookup_insert_ne by done. rewrite enter_frames_other in Hf by done.
        eauto.
Qed.

Lemma kext_wf_step a k : kext_wf k → kext_wf (kexec (K_step a) k).
Proof.
  intros Hk. pose proof Hk as (Hwf & Hout & Hcount & Hlive & Hleave). simpl.
  destruct (invocations k !! a) as [[| |]|] eqn:Ha; try done.
  destruct (frames (kext_world k) !! a) as [f|] eqn:Hf; [|done].
  assert (Hstep : kext_wf {| kext_world := step a (kext_world k);
                             s_numActiveKauthEvents := s_numActiveKauthEvents k;
                             invocations := invocations k |}).
  { split; [by apply wf_step|]. split; [by apply all_outputs_wf_step|].
    split; [done|]. split; [|done]. simpl.
    intros b g Hg Hpc. destruct (decide (b = a)) as [->|Hne]; [done|].
    rewrite step_frames_other in Hg by done. eauto. }
  destruct (pc f) eqn:Hpc; try exact Hstep.
  apply kext_wf_relabel; try done.
  - intros b g Hg Hpcg. specialize (Hlive b g Hg Hpcg).
    destruct (decide (b = a)) as [->|Hne]; [congruence|].
    by rewrite lookup_insert_ne.
  - intros v [= <-]. by destruct (Hout a f Hf) as (? & _).
Qed.

Lemma kext_wf_leave a k : kext_wf k → kext_wf (kexec (K_leave a) k).
Proof.
  intros (Hwf & Hout & Hcount & Hlive & Hleave). simpl.
  destruct (invocations k !! a) as [[| |v]|] eqn:Ha; try done.
  split; [done|]. split; [done|]. simpl. split; [|split].
  - rewrite map_size_delete_Some by eauto. rewrite Hcount.
    replace (wrap_int32 (Z.of_nat (size (invocations k))) - 1)
      with (wrap_int32 (Z.of_nat (size (invocations k))) + -1) by lia.
    rewrite wrap_int32_add. f_equal.
    assert (size (invocations k) ≠ 0%nat).
    { intros H0. apply map_size_empty_inv in H0. rewrite H0 in Ha.
      by rewrite lookup_empty in Ha. }
    lia.
  - intros b f Hf Hpc. specialize (Hlive b f Hf Hpc).
    destruct (decide (b = a)) as [->|Hne]; [congruence|].
    by rewrite lookup_delete_ne.
  - intros b v'. destruct (decide (b = a)) as [->|Hne].
    + by rewrite lookup_delete_eq.
    + rewrite lookup_delete_ne by done. apply Hleave.
Qed.

Lemma kext_wf_exec act k : kext_wf k → kext_wf (kexec act k).
Proof.
  intros Hk. destruct act as [a c v x|a r s|a|a|messageId responseType|].
  - by apply kext_wf_invoke.
  - by apply kext_wf_classify.
  - by apply kext_wf_step.
  - by apply kext_wf_leave.
  - destruct Hk as (Hwf & Hout & Hcount & Hlive & Hleave).
    split; [by apply wf_response|].
    split; [by apply (all_outputs_wf_exec (Act_response _ _))|].
    split; [done|]. split; [|done]. simpl.
    intros b f Hf Hpc.
    destruct (response_frames messageId responseType (kext_world k) b)
      as [E|(g & Hg & E)]; rewrite E in Hf; [eauto|].
    injection Hf as <-. eauto.
  - destruct Hk as (Hwf & Hout & Hcount & Hlive & Hleave).
    split; [by apply wf_abort|]. done.
Qed.

Lemma kreachable_wf k : kreachable k → kext_wf k.
Proof.
  intros [acts ->]. generalize kext_wf_boot. generalize Kext_boot.
  induction acts as [|act acts IH]; intros k Hk; [done|].
  simpl. by apply IH, kext_wf_exec.
Qed.

(** X17. The counter counts. In every state the listener can reach,
    [s_numActiveKauthEvents] is the number of calls of [HandleVnodeOperation]
    that have incremented it and not yet decremented it, as a 32-bit value;
    with fewer than 2^31 calls in progress it is that number itself, and so
    never negative. *)
Theorem counter_counts_invocations k :
  kreachable k →
  s_numActiveKauthEvents k = wrap_int32 (Z.of_nat (size (invocations k)))
  ∧ (Z.of_nat (size (invocations k)) < 2 ^ 31 →
     s_numActiveKauthEvents k = Z.of_nat (size (invocations k))
     ∧ 0 <= s_numActiveKauthEvents k).
Proof.
  intros Hk. apply kreachable_wf in Hk as (_ & _ & Hcount & _).
  split; [done|]. intros Hsize. rewrite Hcount, wrap_int32_small by lia. lia.
Qed.


(** X19. [HandleVnodeOperation] never answers allow: whether the verdict is
    the gate's own or comes out of a round trip, what a call is about to
    return at [CleanupAndReturn] is defer or deny. *)
Theorem handler_never_allows k a v :
  kreachable k →
  invocations k !! a = Some (Inv_leaving v) →
  (v = KAUTH_RESULT_DEFER ∨ v = KAUTH_RESULT_DENY)
  ∧ v ≠ KAUTH_RESULT_ALLOW.
Proof.
  intros Hk Hv. apply kreachable_wf in Hk as (_ & _ & _ & _ & Hleave).
  destruct (Hleave a v Hv) as [-> | ->]; (split; [tauto|discriminate]).
Qed.

(** ** Start and stop *)

Ltac lifecycle_cases ans s :=
  unfold Lifecycle.KauthHandler_Init, Lifecycle.CleanupAndFail,
    Lifecycle.KauthHandler_Cleanup;
  destruct s as [listener mutex w]; simpl;
  destruct listener, mutex, (Lifecycle.Mutex_Alloc_valid ans),
    (Lifecycle.kauth_listen_scope_ok ans),
    (Z.eqb_spec (Lifecycle.VirtualizationRoots_Init_result ans) 0),
    (Z.eqb_spec (Lifecycle.VirtualizationRoots_Cleanup_result ans) 0); simpl.

(** X20. [KauthHandler_Init] succeeds exactly when no listener is registered
    yet, the mutex it allocates is valid, the root table initialises and the
    kernel registers the listener. It then leaves the listener registered,
    the mutex valid, the registry empty, the next message id 1 and the
    shutdown flag cleared, and has called nothing of the cleanup. *)
Theorem Init_succeeds_iff ans s :
  let '(result, s', called) := Lifecycle.KauthHandler_Init ans s in
  (result = Lifecycle.KERN_SUCCESS
   ↔ Lifecycle.s_vnodeListener s = false
     ∧ Lifecycle.Mutex_Alloc_valid ans = true
     ∧ Lifecycle.VirtualizationRoots_Init_result ans = 0
     ∧ Lifecycle.kauth_listen_scope_ok ans = true)
  ∧ (result = Lifecycle.KERN_SUCCESS →
     Lifecycle.s_vnodeListener s' = true
     ∧ Lifecycle.s_outstandingMessagesMutex s' = true
     ∧ s_outstandingMessages (Lifecycle.world s') = []
     ∧ s_nextMessageId (Lifecycle.world s') = 1
     ∧ s_isShuttingDown (Lifecycle.world s') = false
     ∧ frames (Lifecycle.world s') = frames (Lifecycle.world s)
     ∧ called = [Lifecycle.C_Mutex_Alloc; Lifecycle.C_VirtualizationRoots_Init;
                 Lifecycle.C_kauth_listen_scope]).
Proof.
  lifecycle_cases ans s;
    (split; [split; [try discriminate; intros _; tauto
                    |intros (? & ? & ? & ?); try discriminate; try done]
            |try discriminate; intros _; tauto]).
Qed.

(** X21. A start that fails rolls back. Whatever made [KauthHandler_Init]
    fail, it returns KERN_FAILURE after a full [KauthHandler_Cleanup]: no
    listener is registered afterwards, the mutex is not valid, and the
    shutdown flag is set. This holds for a second start as well: calling
    [KauthHandler_Init] while a listener is registered unregisters that
    listener. *)
Theorem Init_failure_rolls_back ans s :
  fst (fst (Lifecycle.KauthHandler_Init ans s)) ≠ Lifecycle.KERN_SUCCESS →
  let '(result, s', called) := Lifecycle.KauthHandler_Init ans s in
  result = Lifecycle.KERN_FAILURE
  ∧ Lifecycle.s_vnodeListener s' = false
  ∧ Lifecycle.s_outstandingMessagesMutex s' = false
  ∧ s_isShuttingDown (Lifecycle.world s') = true
  ∧ Lifecycle.C_AbortAllOutstandingEvents ∈ called
  ∧ Lifecycle.C_VirtualizationRoots_Cleanup ∈ called
  ∧ (Lifecycle.s_vnodeListener s = true →
     head called = Some Lifecycle.C_kauth_unlisten_scope).
Proof.
  lifecycle_cases ans s; intros Hfail; try done;
    (repeat split; try done; try discriminate;
     rewrite ?elem_of_cons; tauto).
Qed.


(** X23. Stop and start again. After a cleanup, whatever it returned, a start
    that gets its mutex, its root table and its listener succeeds, and begins
    with the shutdown flag cleared, the registry empty and the message ids
    starting over at 1. *)
Theorem Init_after_Cleanup ans ans' s :
  Lifecycle.Mutex_Alloc_valid ans' = true →
  Lifecycle.VirtualizationRoots_Init_result ans' = 0 →
  Lifecycle.kauth_listen_scope_ok ans' = true →
  let '(result, s', called) :=
    Lifecycle.KauthHandler_Init ans'
      (snd (fst (Lifecycle.KauthHandler_Cleanup ans s))) in
  result = Lifecycle.KERN_SUCCESS
  ∧ Lifecycle.s_vnodeListener s' = true
  ∧ s_isShuttingDown (Lifecycle.world s') = false
  ∧ s_outstandingMessages (Lifecycle.world s') = []
  ∧ s_nextMessageId (Lifecycle.world s') = 1.
Proof.
  intros Halloc Hinit Hlisten.
  unfold Lifecycle.KauthHandler_Init, Lifecycle.KauthHandler_Cleanup.
  destruct s as [listener mutex w]; simpl.
  destruct listener, mutex; simpl; rewrite Halloc, Hlisten, Hinit; simpl; done.
Qed.

(** ** The further properties at sample inputs *)

Lemma gate_verdicts_witness :
  fst (HandleVnodeOperation (process 77 "cat")
         (sampleVnode VREG placeholderFlags (Some offlineRoot))
         KAUTH_VNODE_WRITE_DATA) = Verdict KAUTH_RESULT_DENY
  ∧ (KAUTH_RESULT_DENY = KAUTH_RESULT_DEFER ∨ KAUTH_RESULT_DENY = KAUTH_RESULT_DENY).
Proof.
  split; [reflexivity|].
  exact (proj1 (gate_verdicts (process 77 "cat")
                  (sampleVnode VREG placeholderFlags (Some offlineRoot))
                  KAUTH_VNODE_WRITE_DATA KAUTH_RESULT_DENY eq_refl)).
Defined.


Lemma no_root_found_defers_witness :
  reachesRootLookup (process 77 "cat") (sampleVnode VREG placeholderFlags None) = true
  ∧ fst (HandleVnodeOperation (process 77 "cat")
           (sampleVnode VREG placeholderFlags None) KAUTH_VNODE_READ_DATA)
    = Verdict KAUTH_RESULT_DEFER.
Proof.
  split; [reflexivity|].
  exact (proj1 (no_root_found_defers (process 77 "cat")
                  (sampleVnode VREG placeholderFlags None) KAUTH_VNODE_READ_DATA
                  eq_refl eq_refl)).
Defined.

Lemma GetRelativePath_is_suffix_witness :
  (String.length "/repo" ≤ String.length "/repo/src/a.c")%nat
  ∧ ∃ skipped,
      "/repo/src/a.c"%string = skipped +:+ GetRelativePath "/repo/src/a.c" "/repo"
      ∧ (String.length skipped = String.length "/repo"
         ∨ String.length skipped = S (String.length "/repo")).
Proof.
  assert (H : (String.length "/repo" ≤ String.length "/repo/src/a.c")%nat)
    by (simpl; lia).
  split; [exact H|].
  exact (GetRelativePath_is_suffix "/repo/src/a.c" "/repo" H).
Defined.

Lemma path_resolution_failure_witness :
  reachable atEntryUnresolvable
  ∧ s_nextMessageId (step 1%nat atEntryUnresolvable)
    = s_nextMessageId atEntryUnresolvable.
Proof.
  assert (Hr : reachable atEntryUnresolvable) by (eexists; reflexivity).
  split; [exact Hr|].
  assert (Hf : ∃ f, frames atEntryUnresolvable !! 1%nat = Some f
                    ∧ pc f = L_entry ∧ vn_path (call_vnode (call f)) = None).
  { eexists. split; [vm_compute; reflexivity|]. split; reflexivity. }
  destruct Hf as (f & Hf & Hl & Hpath).
  exact (proj1 (proj2 (path_resolution_failure 1%nat atEntryUnresolvable f
                         Hr Hf Hl Hpath))).
Defined.

Lemma round_trip_outputs_witness :
  reachable atResponseFail
  ∧ ∃ f, frames atResponseFail !! 1%nat = Some f
         ∧ kauthResult f ≠ KAUTH_RESULT_ALLOW.
Proof.
  assert (Hr : reachable atResponseFail).
  { eexists. unfold atResponseFail, blockedInWait. rewrite <- run_app. reflexivity. }
  split; [exact Hr|].
  assert (Hf : ∃ f, frames atResponseFail !! 1%nat = Some f).
  { eexists. vm_compute. reflexivity. }
  destruct Hf as (f & Hf). exists f. split; [exact Hf|].
  exact (proj1 (proj2 (round_trip_outputs 1%nat atResponseFail f Hr Hf))).
Defined.



Lemma abort_wakes_every_blocked_thread_witness :
  reachable blockedInWait
  ∧ s_isShuttingDown blockedInWait = false
  ∧ s_isShuttingDown (fst (AbortAllOutstandingEvents blockedInWait)) = true.
Proof.
  assert (Hr : reachable blockedInWait) by (eexists; reflexivity).
  split; [exact Hr|]. split; [reflexivity|].
  exact (proj1 (abort_wakes_every_blocked_thread blockedInWait Hr eq_refl)).
Defined.


Lemma message_ids_unique_witness :
  Z.of_nat (length (untilWaiting 1 0 ++ untilWaiting 2 0)) <= 2 ^ 31 - 2
  ∧ unique_ids (run (untilWaiting 1 0 ++ untilWaiting 2 0) KauthHandler_Init).
Proof.
  assert (H : Z.of_nat (length (untilWaiting 1 0 ++ untilWaiting 2 0)) <= 2 ^ 31 - 2)
    by (simpl; lia).
  split; [exact H|].
  exact (proj1 (message_ids_unique (untilWaiting 1 0 ++ untilWaiting 2 0) H)).
Defined.

Lemma answered_round_trip_witness :
  reachable blockedInWait
  ∧ unique_ids blockedInWait
  ∧ ∃ f', frames (run [Act_step 1; Act_step 1; Act_step 1; Act_step 1; Act_step 1]
                    (exec (Act_response 1 MessageType_Response_Success)
                       blockedInWait)) !! 1%nat = Some f'
          ∧ pc f' = L_returned ∧ result f' = true
          ∧ kauthResult f' = KAUTH_RESULT_DEFER.
Proof.
  assert (Hr : reachable blockedInWait) by (eexists; reflexivity).
  assert (Hu : unique_ids blockedInWait).
  { intros a b f g Ha Hb _ _ _.
    change (s_outstandingMessages blockedInWait) with [1%nat] in Ha, Hb.
    apply list_elem_of_singleton in Ha, Hb. congruence. }
  split; [exact Hr|]. split; [exact Hu|].
  assert (Hf : ∃ f, frames blockedInWait !! 1%nat = Some f
                    ∧ pc f = L_wait_shutdown
                    ∧ request_messageId (message f) = 1).
  { eexists. split; [vm_compute; reflexivity|]. split; reflexivity. }
  destruct Hf as (f & Hf & Hl & Hid).
  assert (Hpc : pc f ∈ [L_wait_received; L_wait_shutdown]).
  { rewrite Hl, !elem_of_cons. tauto. }
  assert (Hacts : Forall (λ act, keeps_waiting 1%nat act = true)
            [Act_step 1%nat; Act_step 1%nat; Act_step 1%nat; Act_step 1%nat;
             Act_step 1%nat]) by (repeat constructor).
  assert (Hn : (5 ≤ own_steps 1%nat
            [Act_step 1%nat; Act_step 1%nat; Act_step 1%nat; Act_step 1%nat;
             Act_step 1%nat])%nat) by (vm_compute; lia).
  destruct (proj2 (answered_round_trip Success 1%nat blockedInWait f _
                     Hr Hu eq_refl Hf Hpc Hacts Hn))
    as (f' & Hf' & Hl' & Hres & Hv & _).
  rewrite Hid in Hf'. exists f'. tauto.
Defined.

Lemma success_returns_true_witness :
  reachable atResponseSuccess
  ∧ ∃ f', frames (run [Act_response 1 MessageType_Response_Fail; Act_step 1]
                    (step 1%nat atResponseSuccess)) !! 1%nat = Some f'
          ∧ pc f' = L_returned ∧ result f' = true
          ∧ kauthResult f' = KAUTH_RESULT_DEFER.
Proof.
  assert (Hr : reachable atResponseSuccess).
  { eexists. unfold atResponseSuccess, blockedInWait. rewrite <- run_app.
    reflexivity. }
  split; [exact Hr|].
  assert (Hf : ∃ f, frames atResponseSuccess !! 1%nat = Some f
                    ∧ pc f = L_response
                    ∧ is_Response_Success (response (message f)) = true).
  { eexists. split; [vm_compute; reflexivity|]. split; reflexivity. }
  destruct Hf as (f & Hf & Hl & Hresp).
  assert (Hcalls : same_call 1%nat
            [Act_response 1 MessageType_Response_Fail; Act_step 1%nat])
    by (repeat constructor).
  assert (Hn : (1 ≤ own_steps 1%nat
            [Act_response 1 MessageType_Response_Fail; Act_step 1%nat])%nat)
    by (vm_compute; lia).
  destruct (proj2 (success_returns_true 1%nat atResponseSuccess f _
                     Hr Hf Hl Hresp Hcalls Hn))
    as (f' & Hf' & Hl' & Hres & Hv & _).
  exists f'. tauto.
Defined.

Lemma counter_counts_invocations_witness :
  kreachable oneClassifying
  ∧ s_numActiveKauthEvents oneClassifying
    = wrap_int32 (Z.of_nat (size (invocations oneClassifying))).
Proof.
  assert (Hk : kreachable oneClassifying) by (eexists; reflexivity).
  split; [exact Hk|].
  exact (proj1 (counter_counts_invocations oneClassifying Hk)).
Defined.


Lemma handler_never_allows_witness :
  kreachable oneLeaving
  ∧ invocations oneLeaving !! 1%nat = Some (Inv_leaving KAUTH_RESULT_DENY)
  ∧ KAUTH_RESULT_DENY ≠ KAUTH_RESULT_ALLOW.
Proof.
  assert (Hk : kreachable oneLeaving).
  { exists [K_invoke 1%nat (process 77 "cat")
              (sampleVnode VREG placeholderFlags (Some offlineRoot))
              KAUTH_VNODE_WRITE_DATA;
            K_classify 1%nat 0 stackGarbage]. reflexivity. }
  assert (Hv : invocations oneLeaving !! 1%nat = Some (Inv_leaving KAUTH_RESULT_DENY))
    by (vm_compute; reflexivity).
  split; [exact Hk|]. split; [exact Hv|].
  exact (proj2 (handler_never_allows oneLeaving 1%nat KAUTH_RESULT_DENY Hk Hv)).
Defined.

Lemma Init_failure_rolls_back_witness :
  fst (fst (Lifecycle.KauthHandler_Init noListener Lifecycle.boot))
    ≠ Lifecycle.KERN_SUCCESS
  ∧ fst (fst (Lifecycle.KauthHandler_Init noListener Lifecycle.boot))
    = Lifecycle.KERN_FAILURE.
Proof.
  assert (H : fst (fst (Lifecycle.KauthHandler_Init noListener Lifecycle.boot))
              ≠ Lifecycle.KERN_SUCCESS) by (vm_compute; discriminate).
  split; [exact H|].
  pose proof (Init_failure_rolls_back noListener Lifecycle.boot H) as Hroll.
  destruct (Lifecycle.KauthHandler_Init noListener Lifecycle.boot) as [[r s'] c].
  exact (proj1 Hroll).
Defined.

Lemma Init_after_Cleanup_witness :
  Lifecycle.Mutex_Alloc_valid goodAnswers = true
  ∧ fst (fst (Lifecycle.KauthHandler_Init goodAnswers
                (snd (fst (Lifecycle.KauthHandler_Cleanup goodAnswers Lifecycle.boot)))))
    = Lifecycle.KERN_SUCCESS.
Proof.
  split; [reflexivity|].
  pose proof (Init_after_Cleanup goodAnswers goodAnswers Lifecycle.boot
                eq_refl eq_refl eq_refl) as H.
  destruct (Lifecycle.KauthHandler_Init goodAnswers
              (snd (fst (Lifecycle.KauthHandler_Cleanup goodAnswers Lifecycle.boot))))
    as [[r s'] c].
  exact (proj1 H).
Defined.
